(** * CyberArk SCA and SIA policy retriever (AWS Secrets Manager)

    A shallow embedding of [get_sca_sia_policies_aws.py] and the properties
    of its reporting and orchestration code.

    The script is sequential glue around three outside services (the secret
    store, the OAuth2 token endpoint, the two policy endpoints).  The
    embedding keeps the script's own code as Rocq functions in a small
    trace-and-exception monad; the outside services are fields of a [world]
    record that the functions consult, each consultation leaving an event in
    the trace next to the lines that [print] writes. *)

From Stdlib Require Import ZArith String Ascii List Bool Lia DecimalString Floats.
Import ListNotations.

Set Warnings "-register-all".

Local Open Scope string_scope.
Local Open Scope Z_scope.

(** ** Python values

    The data the script handles comes out of [json.loads] and
    [response.json()]: [None], booleans, integers, floats, strings, lists
    and dicts with string keys.  A dict is an association list in insertion
    order; Python dicts have unique keys, and lookup takes the first entry
    for a key. *)

Inductive value : Type :=
| PNone
| PBool (b : bool)
| PInt (n : Z)
| PFloat (f : float)
| PStr (s : string)
| PList (items : list value)
| PDict (entries : list (string * value)).

Definition pydict := list (string * value).

(** Exceptions the script can meet.  None of them is caught anywhere in the
    script: each one ends the run. *)

Inductive exn : Type :=
| KeyError (key : string)
| TypeError
| AttributeError
| OverflowError
| JSONDecodeError
| HTTPError (status : Z)
| ConnectionError
| ClientError (code : string)
| ValueError.

Inductive result (A : Type) : Type :=
| Ok (a : A)
| Raise (e : exn).

Arguments Ok {A} a.
Arguments Raise {A} e.

(** ** Strings *)

Definition nl : string := String (ascii_of_nat 10) EmptyString.

(** [s * n] on a string. *)
Fixpoint str_mul (s : string) (n : nat) : string :=
  match n with
  | O => ""
  | S n' => s ++ str_mul s n'
  end.

(** [str] of an integer: its decimal numeral, with a minus sign when
    negative. *)
Definition str_int (n : Z) : string := NilZero.string_of_int (Z.to_int n).

(** The characters of a string, as one-character strings. *)
Fixpoint chars (s : string) : list string :=
  match s with
  | EmptyString => []
  | String c s' => String c EmptyString :: chars s'
  end.

(** ** Dict and object primitives *)

Fixpoint lookup (k : string) (d : pydict) : option value :=
  match d with
  | [] => None
  | (k', v) :: d' => if String.eqb k k' then Some v else lookup k d'
  end.

(** [obj.get(key, default)]: only a dict has the method. *)
Definition py_get (obj : value) (key : string) (default : value) : result value :=
  match obj with
  | PDict d =>
      match lookup key d with
      | Some v => Ok v
      | None => Ok default
      end
  | _ => Raise AttributeError
  end.

(** [obj[key]] with a string key: a missing key of a dict is a [KeyError];
    a string or list wants integer indices and anything else is not
    subscriptable. *)
Definition py_getitem (obj : value) (key : string) : result value :=
  match obj with
  | PDict d =>
      match lookup key d with
      | Some v => Ok v
      | None => Raise (KeyError key)
      end
  | _ => Raise TypeError
  end.

(** What [for x in obj] runs over: the items of a list, the keys of a dict,
    the characters of a string. *)
Definition py_iter (obj : value) : result (list value) :=
  match obj with
  | PList items => Ok items
  | PDict d => Ok (map (fun kv => PStr (fst kv)) d)
  | PStr s => Ok (map PStr (chars s))
  | _ => Raise TypeError
  end.

(** Truth value of [os.getenv]'s result: [None] and the empty string are
    false. *)
Definition truthy_env (v : option string) : bool :=
  match v with
  | None => false
  | Some s => negb (String.eqb s "")
  end.

(** ** Numbers *)

(** A float compared with an integer: Python compares the exact values. *)
Definition float_eq_int (f : float) (n : Z) : bool :=
  match Prim2SF f with
  | S754_zero _ => n =? 0
  | S754_finite s m e =>
      let z := if s then Z.neg m else Z.pos m in
      if 0 <=? e then z * 2 ^ e =? n else z =? n * 2 ^ (- e)
  | _ => false
  end.

(** [obj == n] for an integer [n].  [bool] is a subclass of [int]:
    [True == 1] and [False == 0]. *)
Definition py_eq_int (obj : value) (n : Z) : bool :=
  match obj with
  | PBool b => (if b then 1 else 0) =? n
  | PInt m => m =? n
  | PFloat f => float_eq_int f n
  | _ => false
  end.

(** [float(n)]: the nearest double, [OverflowError] past the largest one. *)
Definition float_of_int (n : Z) : result float :=
  let f := SF2Prim (binary_normalize 53 1024 n 0 false) in
  if PrimFloat.is_infinity f then Raise OverflowError else Ok f.

Definition as_int (obj : value) : option Z :=
  match obj with
  | PBool b => Some (if b then 1 else 0)
  | PInt n => Some n
  | _ => None
  end.

(** [a + b]. *)
Definition py_add (a b : value) : result value :=
  match as_int a, as_int b with
  | Some x, Some y => Ok (PInt (x + y))
  | Some x, None =>
      match b with
      | PFloat g =>
          match float_of_int x with
          | Ok f => Ok (PFloat (f + g)%float)
          | Raise e => Raise e
          end
      | _ => Raise TypeError
      end
  | None, Some y =>
      match a with
      | PFloat f =>
          match float_of_int y with
          | Ok g => Ok (PFloat (f + g)%float)
          | Raise e => Raise e
          end
      | _ => Raise TypeError
      end
  | None, None =>
      match a, b with
      | PFloat f, PFloat g => Ok (PFloat (f + g)%float)
      | PStr s, PStr t => Ok (PStr (s ++ t))
      | PList l, PList m => Ok (PList (l ++ m)%list)
      | _, _ => Raise TypeError
      end
  end.

(** ** [str]

    [str] of [None], a boolean, an integer and a string is spelled out.  For
    a float, a list and a dict [str] is [repr], Python's own rendering, which
    the script does not contain: it is taken as given. *)

Class Repr := py_repr : value -> string.

Definition py_str `{Repr} (obj : value) : string :=
  match obj with
  | PNone => "None"
  | PBool true => "True"
  | PBool false => "False"
  | PInt n => str_int n
  | PStr s => s
  | _ => py_repr obj
  end.

(** CPython converts an integer to text only up to a number of decimal
    digits, 4300 unless configured otherwise, and raises [ValueError] past
    it.  The JSON decoder applies the same limit to the integer literals it
    reads, so an integer that reaches the script in a decoded value is
    within it, and [py_str] is what [str] gives on decoded values.  An
    integer that the script computes itself can pass the limit. *)
Definition int_max_str_digits : Z := 4300.

(** An integer is within the limit when it is below [10 ^ 4300] in
    absolute value.  The length in bits settles it for most integers: one of
    fewer than [3 * 4300] bits is below [8 ^ 4300]; the comparison with the
    power of ten is made for the others. *)
Definition within_str_limit (n : Z) : bool :=
  (Z.log2 (Z.abs n) <? 3 * int_max_str_digits)
  || (Z.abs n <? 10 ^ int_max_str_digits).

(** [str] of a value that the script has computed. *)
Definition py_str_computed `{Repr} (obj : value) : result string :=
  match obj with
  | PInt n => if within_str_limit n then Ok (py_str obj) else Raise ValueError
  | _ => Ok (py_str obj)
  end.

(** ** The outside world

    A text that the script decodes as JSON is given by what the decoder makes
    of it: [Some v], or [None] when [json.loads] / [response.json()] raises. *)

Definition json_text := option value.

(** A [requests] response: its status code and its body. *)
Record http_response : Type := {
  status_code : Z;
  body : json_text
}.

(** A [get_secret_value] response: the [SecretString] entry, absent for a
    binary secret. *)
Record secret_response : Type := {
  SecretString : option json_text
}.

(** What a run can observe, in order: the lines it prints and the calls it
    makes. *)
Inductive event : Type :=
| Print (line : string)
| SecretsManagerGet (region : string) (secret_id : option string)
| HttpPost (url : string) (data : pydict)
| HttpGet (url : string) (authorization : string).

(** The environment and the three services.  A service answers with a
    response or with the exception its client library raises (access denied,
    unknown secret, connection failure). *)
Record world : Type := {
  AWS_SECRET_NAME : option string;
  AWS_REGION : option string;
  get_secret_value : string -> option string -> result secret_response;
  requests_post : string -> pydict -> result http_response;
  requests_get : string -> string -> result http_response
}.

(** ** Trace-and-exception monad

    A computation yields the events it produced and either a value or the
    exception that stopped it.  Events produced before an exception stay in
    the trace: what was printed stays printed. *)

Definition M (A : Type) : Type := list event * result A.

Definition ret {A} (a : A) : M A := ([], Ok a).

Definition bind {A B} (m : M A) (f : A -> M B) : M B :=
  match m with
  | (t, Ok a) => let (t', r) := f a in ((t ++ t')%list, r)
  | (t, Raise e) => (t, Raise e)
  end.

Definition lift {A} (r : result A) : M A := ([], r).

Definition emit (e : event) : M unit := ([e], Ok tt).

Definition print (line : string) : M unit := emit (Print line).

Declare Scope py_scope.
Delimit Scope py_scope with py.
Notation "x <- m ;; k" := (bind m (fun x => k))
  (at level 61, m at next level, right associativity) : py_scope.
Notation "m ;; k" := (bind m (fun _ => k))
  (at level 61, right associativity) : py_scope.
Local Open Scope py_scope.

Definition trace {A} (m : M A) : list event := fst m.
Definition outcome {A} (m : M A) : result A := snd m.

(** The body of a [for] loop run over the items in order; an exception in
    one round ends the loop. *)
Fixpoint for_list {A} (items : list A) (body : A -> M unit) : M unit :=
  match items with
  | [] => ret tt
  | x :: rest => body x ;; for_list rest body
  end.

Definition for_each (obj : value) (body : value -> M unit) : M unit :=
  items <- lift (py_iter obj) ;;
  for_list items body.

(** ** Observations on traces *)

Definition printed_line (e : event) : option string :=
  match e with
  | Print line => Some line
  | _ => None
  end.

(** The lines printed, in order. *)
Fixpoint printed (t : list event) : list string :=
  match t with
  | [] => []
  | e :: t' =>
      match printed_line e with
      | Some line => line :: printed t'
      | None => printed t'
      end
  end.

(** Standard output as text: [print] ends every line with a newline. *)
Definition stdout (t : list event) : string :=
  String.concat "" (map (fun line => line ++ nl) (printed t)).

Definition is_network (e : event) : bool :=
  match e with
  | Print _ => false
  | _ => true
  end.

Definition is_policy_fetch (e : event) : bool :=
  match e with
  | HttpGet _ _ => true
  | _ => false
  end.

(** ** The [requests] response methods *)

(** [response.raise_for_status()]: an [HTTPError] for a 4xx or 5xx status. *)
Definition raise_for_status (r : http_response) : result unit :=
  if (400 <=? status_code r) && (status_code r <? 600)
  then Raise (HTTPError (status_code r))
  else Ok tt.

(** [response.json()]. *)
Definition json (r : http_response) : result value :=
  match body r with
  | Some v => Ok v
  | None => Raise JSONDecodeError
  end.

(** [json.loads(text)]. *)
Definition json_loads (t : json_text) : result value :=
  match t with
  | Some v => Ok v
  | None => Raise JSONDecodeError
  end.

(** ** The script *)

Section Script.
Context `{Repr}.

(** Module-level configuration, read from the environment at start-up. *)
Definition SECRET_NAME (w : world) : option string := AWS_SECRET_NAME w.

Definition REGION (w : world) : string :=
  match AWS_REGION w with
  | Some region => region
  | None => "us-east-2"
  end.

Definition get_secret (w : world) : M value :=
  emit (SecretsManagerGet (REGION w) (SECRET_NAME w)) ;;
  response <- lift (get_secret_value w (REGION w) (SECRET_NAME w)) ;;
  text <- lift (match SecretString response with
                | Some text => Ok text
                | None => Raise (KeyError "SecretString")
                end) ;;
  lift (json_loads text).

Definition get_token (w : world) (secret : value) : M value :=
  tenant <- lift (py_getitem secret "identity_tenant_id") ;;
  let url := "https://" ++ py_str tenant ++ ".id.cyberark.cloud/oauth2/platformtoken" in
  client_id <- lift (py_getitem secret "client_id") ;;
  client_secret <- lift (py_getitem secret "client_secret") ;;
  let data := [("grant_type", PStr "client_credentials");
               ("client_id", client_id);
               ("client_secret", client_secret)] in
  emit (HttpPost url data) ;;
  response <- lift (requests_post w url data) ;;
  lift (raise_for_status response) ;;
  payload <- lift (json response) ;;
  lift (py_getitem payload "access_token").

Definition get_sca_policies (w : world) (subdomain token : value) : M value :=
  let url := "https://" ++ py_str subdomain ++ ".sca.cyberark.cloud/api/policies" in
  let authorization := "Bearer " ++ py_str token in
  emit (HttpGet url authorization) ;;
  response <- lift (requests_get w url authorization) ;;
  lift (raise_for_status response) ;;
  lift (json response).

Definition get_sia_policies (w : world) (subdomain token : value) : M value :=
  let url := "https://" ++ py_str subdomain ++ ".uap.cyberark.cloud/api/policies" in
  let authorization := "Bearer " ++ py_str token in
  emit (HttpGet url authorization) ;;
  response <- lift (requests_get w url authorization) ;;
  lift (raise_for_status response) ;;
  lift (json response).

(** The body of the loop of [display_sca_policies]: one policy, four
    lines.  Each line is built, then printed, before the next one is
    built. *)
Definition display_sca_policy (policy : value) : M unit :=
  name <- lift (py_get policy "name" PNone) ;;
  print (nl ++ "  Name:        " ++ py_str name) ;;
  description <- lift (py_get policy "description" PNone) ;;
  print ("  Description: " ++ py_str description) ;;
  status <- lift (py_get policy "status" PNone) ;;
  print ("  Status:      " ++ (if py_eq_int status 1 then "Active" else "Inactive")) ;;
  policyId <- lift (py_get policy "policyId" PNone) ;;
  print ("  Policy ID:   " ++ py_str policyId).

Definition display_sca_policies (sca_data : value) : M unit :=
  print (nl ++ str_mul "=" 60) ;;
  print "SCA POLICIES (sca.cyberark.cloud)" ;;
  print (str_mul "=" 60) ;;
  hits <- lift (py_get sca_data "hits" (PList [])) ;;
  for_each hits display_sca_policy.

(** The body of the loop of [display_sia_policies]. *)
Definition display_sia_policy (policy : value) : M unit :=
  metadata <- lift (py_get policy "metadata" (PDict [])) ;;
  name <- lift (py_get metadata "name" PNone) ;;
  print (nl ++ "  Name:        " ++ py_str name) ;;
  description <- lift (py_get metadata "description" PNone) ;;
  print ("  Description: " ++ py_str description) ;;
  status_container <- lift (py_get metadata "status" (PDict [])) ;;
  status <- lift (py_get status_container "status" PNone) ;;
  print ("  Status:      " ++ py_str status) ;;
  policyId <- lift (py_get metadata "policyId" PNone) ;;
  print ("  Policy ID:   " ++ py_str policyId).

Definition display_sia_policies (sia_data : value) : M unit :=
  print (nl ++ str_mul "=" 60) ;;
  print "SIA POLICIES (uap.cyberark.cloud)" ;;
  print (str_mul "=" 60) ;;
  results <- lift (py_get sia_data "results" (PList [])) ;;
  for_each results display_sia_policy.

(** The summary at the end of [main].  The two totals are decoded values;
    their sum is computed here, and the f-string converts it to text after
    the first rule has been printed. *)
Definition main_summary (sca_data sia_data : value) : M unit :=
  sca_total <- lift (py_get sca_data "total" (PInt 0)) ;;
  sia_total <- lift (py_get sia_data "total" (PInt 0)) ;;
  print (nl ++ str_mul "=" 60) ;;
  total <- lift (py_add sca_total sia_total) ;;
  total_text <- lift (py_str_computed total) ;;
  print ("TOTAL: " ++ py_str sca_total ++ " SCA + " ++ py_str sia_total
         ++ " SIA = " ++ total_text ++ " policies") ;;
  print (str_mul "=" 60).

(** [main] from the acquired token on. *)
Definition main_fetch_and_report (w : world) (secret token : value) : M unit :=
  print "[3/4] Retrieving SCA policies..." ;;
  subdomain <- lift (py_getitem secret "subdomain") ;;
  sca_data <- get_sca_policies w subdomain token ;;
  print "      ✓ Done" ;;
  print "[4/4] Retrieving SIA policies..." ;;
  subdomain <- lift (py_getitem secret "subdomain") ;;
  sia_data <- get_sia_policies w subdomain token ;;
  print "      ✓ Done" ;;
  display_sca_policies sca_data ;;
  display_sia_policies sia_data ;;
  main_summary sca_data sia_data.

Definition main (w : world) : M unit :=
  print (str_mul "=" 60) ;;
  print "CyberArk SCA & SIA Policy Retriever (AWS Secrets Manager)" ;;
  print (str_mul "=" 60) ;;
  if negb (truthy_env (SECRET_NAME w)) then
    print (nl ++ "[ERROR] Missing AWS_SECRET_NAME environment variable.") ;;
    print "Set AWS_SECRET_NAME in your .env file or environment." ;;
    print "See .env.example for reference."
  else
    print (nl ++ "[1/4] Retrieving credentials from AWS Secrets Manager...") ;;
    secret <- get_secret w ;;
    print "      ✓ Credentials retrieved" ;;
    print "[2/4] Authenticating via OAuth 2.0..." ;;
    token <- get_token w secret ;;
    print "      ✓ Bearer token acquired" ;;
    main_fetch_and_report w secret token.

End Script.

(** ** Vocabulary of the properties *)

(** The value of an entry, [default] when the key is absent: what
    [d.get(key, default)] evaluates to. *)
Definition field_or (d : pydict) (key : string) (default : value) : value :=
  match lookup key d with
  | Some v => v
  | None => default
  end.

(** [d.get(key)]: the default is [None]. *)
Definition field (d : pydict) (key : string) : value := field_or d key PNone.

Definition has_key (obj : value) (key : string) : bool :=
  match obj with
  | PDict d =>
      match lookup key d with
      | Some _ => true
      | None => false
      end
  | _ => false
  end.

Definition is_dict (obj : value) : bool :=
  match obj with
  | PDict _ => true
  | _ => false
  end.



(** The [n]-th line a computation prints, counting from 0. *)
Definition line {A} (n : nat) (m : M A) : option string :=
  nth_error (printed (trace m)) n.

Definition no_network (t : list event) : bool :=
  forallb (fun e => negb (is_network e)) t.

Definition no_policy_fetch (t : list event) : bool :=
  forallb (fun e => negb (is_policy_fetch e)) t.

Definition rule : string := str_mul "=" 60.

(** A rule after an empty line. *)
Definition spaced_rule : string := nl ++ rule.

(** What each service call of the script comes to, once the call is
    made: the value or the exception that the calling function hands on. *)

(** [get_secret] after the store has answered. *)
Definition secret_payload (w : world) : result value :=
  match get_secret_value w (REGION w) (SECRET_NAME w) with
  | Ok response =>
      match SecretString response with
      | Some text => json_loads text
      | None => Raise (KeyError "SecretString")
      end
  | Raise e => Raise e
  end.

(** The URL and form that [get_token] builds from the secret. *)
Definition token_request `{Repr} (secret : value) : result (string * pydict) :=
  match py_getitem secret "identity_tenant_id" with
  | Ok tenant =>
      match py_getitem secret "client_id" with
      | Ok client_id =>
          match py_getitem secret "client_secret" with
          | Ok client_secret =>
              Ok ("https://" ++ py_str tenant ++ ".id.cyberark.cloud/oauth2/platformtoken",
                  [("grant_type", PStr "client_credentials");
                   ("client_id", client_id);
                   ("client_secret", client_secret)])
          | Raise e => Raise e
          end
      | Raise e => Raise e
      end
  | Raise e => Raise e
  end.

(** [get_token] after the POST. *)
Definition token_reply (w : world) (url : string) (data : pydict) : result value :=
  match requests_post w url data with
  | Ok response =>
      match raise_for_status response with
      | Ok _ =>
          match json response with
          | Ok payload => py_getitem payload "access_token"
          | Raise e => Raise e
          end
      | Raise e => Raise e
      end
  | Raise e => Raise e
  end.

(** [get_sca_policies] and [get_sia_policies] after the GET. *)
Definition fetch_reply (w : world) (url authorization : string) : result value :=
  match requests_get w url authorization with
  | Ok response =>
      match raise_for_status response with
      | Ok _ => json response
      | Raise e => Raise e
      end
  | Raise e => Raise e
  end.

Definition sca_url `{Repr} (subdomain : value) : string :=
  "https://" ++ py_str subdomain ++ ".sca.cyberark.cloud/api/policies".

Definition sia_url `{Repr} (subdomain : value) : string :=
  "https://" ++ py_str subdomain ++ ".uap.cyberark.cloud/api/policies".

Definition bearer `{Repr} (token : value) : string := "Bearer " ++ py_str token.

(** The last three statements of [main_fetch_and_report]: the two
    sections and the summary. *)
Definition report `{Repr} (sca_data sia_data : value) : M unit :=
  (display_sca_policies sca_data ;;
   display_sia_policies sia_data ;;
   main_summary sca_data sia_data)%py.

(** The lines of [main] up to the call of the secret store. *)
Definition banner : list event :=
  [Print rule;
   Print "CyberArk SCA & SIA Policy Retriever (AWS Secrets Manager)";
   Print rule;
   Print (nl ++ "[1/4] Retrieving credentials from AWS Secrets Manager...")].

(** A stand-in for [repr] where a concrete one is needed to run the
    script. *)
Definition plain_repr : Repr := fun _ => "<object>".

(** The services a run calls, by kind. *)
Inductive call_kind : Type :=
| SecretCall
| TokenCall
| FetchCall.

Definition call_of (e : event) : option call_kind :=
  match e with
  | Print _ => None
  | SecretsManagerGet _ _ => Some SecretCall
  | HttpPost _ _ => Some TokenCall
  | HttpGet _ _ => Some FetchCall
  end.

(** The service calls of a trace, in order. *)
Definition calls (t : list event) : list event := filter is_network t.

Fixpoint call_kinds (t : list event) : list call_kind :=
  match t with
  | [] => []
  | e :: t' =>
      match call_of e with
      | Some k => k :: call_kinds t'
      | None => call_kinds t'
      end
  end.

Definition call_kind_eqb (a b : call_kind) : bool :=
  match a, b with
  | SecretCall, SecretCall => true
  | TokenCall, TokenCall => true
  | FetchCall, FetchCall => true
  | _, _ => false
  end.

Fixpoint is_prefix (l full : list call_kind) : bool :=
  match l, full with
  | [], _ => true
  | a :: l', b :: full' => call_kind_eqb a b && is_prefix l' full'
  | _ :: _, [] => false
  end.

(** A status that [raise_for_status] lets through. *)
Definition passes (status : Z) : bool :=
  negb ((400 <=? status) && (status <? 600)).

(** The exception of [get_token] on a secret that lacks a credential
    field: the first failing subscript, in the order the function
    evaluates them. *)
Definition first_missing_credential (secret : value) : exn :=
  match secret with
  | PDict d =>
      match lookup "identity_tenant_id" d with
      | None => KeyError "identity_tenant_id"
      | Some _ =>
          match lookup "client_id" d with
          | None => KeyError "client_id"
          | Some _ => KeyError "client_secret"
          end
      end
  | _ => TypeError
  end.

(** The progress lines of a run that reaches the report. *)
Definition progress : list string :=
  [rule;
   "CyberArk SCA & SIA Policy Retriever (AWS Secrets Manager)";
   rule;
   nl ++ "[1/4] Retrieving credentials from AWS Secrets Manager...";
   "      ✓ Credentials retrieved";
   "[2/4] Authenticating via OAuth 2.0...";
   "      ✓ Bearer token acquired";
   "[3/4] Retrieving SCA policies...";
   "      ✓ Done";
   "[4/4] Retrieving SIA policies...";
   "      ✓ Done"]%string.

(** What a [for] loop accepts. *)
Definition is_iterable (obj : value) : bool :=
  match obj with
  | PList _ | PDict _ | PStr _ => true
  | _ => false
  end.

Definition sca_heading : list event :=
  [Print spaced_rule; Print "SCA POLICIES (sca.cyberark.cloud)"; Print rule].

Definition sia_heading : list event :=
  [Print spaced_rule; Print "SIA POLICIES (uap.cyberark.cloud)"; Print rule].

(** ** Sample data *)

Module Sample.

Definition secret : value :=
  PDict [("identity_tenant_id", PStr "abc1234");
         ("client_id", PStr "reporter@example");
         ("client_secret", PStr "s3cret");
         ("subdomain", PStr "acme")].

Definition secret_without_subdomain : value :=
  PDict [("identity_tenant_id", PStr "abc1234");
         ("client_id", PStr "reporter@example");
         ("client_secret", PStr "s3cret")].

Definition sca_policy : value :=
  PDict [("name", PStr "A");
         ("description", PStr "d");
         ("status", PInt 1);
         ("policyId", PStr "p1")].

Definition sca_response : pydict :=
  [("hits", PList [sca_policy]); ("total", PInt 1)].

Definition sia_response : pydict :=
  [("results", PList []); ("total", PInt 0)].

Definition sca_data : value := PDict sca_response.

Definition sia_data : value := PDict sia_response.

Definition sia_policy : pydict :=
  [("metadata", PDict [("name", PStr "db-admins");
                       ("description", PStr "database access");
                       ("status", PDict [("status", PStr "Validating")]);
                       ("policyId", PStr "q7")])].

Definition token_response (status : Z) (token : string) : http_response :=
  {| status_code := status;
     body := Some (PDict [("access_token", PStr token)]) |}.

(** The policy endpoints answer by URL alone. *)
Definition policy_endpoints (url authorization : string) : result http_response :=
  if String.eqb url "https://acme.sca.cyberark.cloud/api/policies"
  then Ok {| status_code := 200; body := Some sca_data |}
  else Ok {| status_code := 200; body := Some sia_data |}.

(** A world whose secret is [s] and whose token endpoint answers [r]. *)
Definition world_with (name : option string) (s : value) (r : http_response) : world :=
  {| AWS_SECRET_NAME := name;
     AWS_REGION := None;
     get_secret_value := fun _ _ => Ok {| SecretString := Some (Some s) |};
     requests_post := fun _ _ => Ok r;
     requests_get := policy_endpoints |}.

Definition healthy : world :=
  world_with (Some "cyberark/api") secret (token_response 200 "tok-1").

Definition token_url : string :=
  "https://abc1234.id.cyberark.cloud/oauth2/platformtoken".

Definition token_form : pydict :=
  [("grant_type", PStr "client_credentials");
   ("client_id", PStr "reporter@example");
   ("client_secret", PStr "s3cret")].

(** A second SIA response, with one record. *)
Definition sia_response_one : pydict :=
  [("results", PList [PDict sia_policy]); ("total", PInt 1)].

End Sample.

(** ** Failure scenarios *)

Module Scenario.

(** The store refuses the read. *)
Definition store_down : world :=
  {| AWS_SECRET_NAME := Some "cyberark/api";
     AWS_REGION := Some "eu-west-1";
     get_secret_value := fun _ _ => Raise (ClientError "AccessDeniedException");
     requests_post := fun _ _ => Ok (Sample.token_response 200 "tok-1");
     requests_get := Sample.policy_endpoints |}.

Definition secret_without_client_secret : value :=
  PDict [("identity_tenant_id", PStr "abc1234");
         ("client_id", PStr "reporter@example");
         ("subdomain", PStr "acme")].

(** The token endpoint cannot be reached. *)
Definition token_unreachable : world :=
  {| AWS_SECRET_NAME := Some "cyberark/api";
     AWS_REGION := None;
     get_secret_value := fun _ _ => Ok {| SecretString := Some (Some Sample.secret) |};
     requests_post := fun _ _ => Raise ConnectionError;
     requests_get := Sample.policy_endpoints |}.

Definition server_error : http_response :=
  {| status_code := 500; body := Some (PDict [("message", PStr "internal error")]) |}.

(** The SCA endpoint answers 500; the SIA endpoint is healthy. *)
Definition sca_down : world :=
  {| AWS_SECRET_NAME := Some "cyberark/api";
     AWS_REGION := None;
     get_secret_value := fun _ _ => Ok {| SecretString := Some (Some Sample.secret) |};
     requests_post := fun _ _ => Ok (Sample.token_response 200 "tok-1");
     requests_get := fun url _ =>
       if String.eqb url "https://acme.sca.cyberark.cloud/api/policies"
       then Ok server_error
       else Ok {| status_code := 200; body := Some Sample.sia_data |} |}.

(** The SCA endpoint is healthy; the SIA endpoint answers 500. *)
Definition sia_down : world :=
  {| AWS_SECRET_NAME := Some "cyberark/api";
     AWS_REGION := None;
     get_secret_value := fun _ _ => Ok {| SecretString := Some (Some Sample.secret) |};
     requests_post := fun _ _ => Ok (Sample.token_response 200 "tok-1");
     requests_get := fun url _ =>
       if String.eqb url "https://acme.sca.cyberark.cloud/api/policies"
       then Ok {| status_code := 200; body := Some Sample.sca_data |}
       else Ok server_error |}.

(** Another tenant, with other credentials, whose endpoints return the
    same policies. *)
Definition other_secret : value :=
  PDict [("identity_tenant_id", PStr "zzz9999");
         ("client_id", PStr "auditor@example");
         ("client_secret", PStr "0ther");
         ("subdomain", PStr "beta")].

Definition other_tenant : world :=
  {| AWS_SECRET_NAME := Some "audit/api";
     AWS_REGION := Some "eu-west-1";
     get_secret_value := fun _ _ => Ok {| SecretString := Some (Some other_secret) |};
     requests_post := fun _ _ => Ok (Sample.token_response 200 "tok-9");
     requests_get := fun url _ =>
       if String.eqb url "https://beta.sca.cyberark.cloud/api/policies"
       then Ok {| status_code := 200; body := Some Sample.sca_data |}
       else Ok {| status_code := 200; body := Some Sample.sia_data |} |}.

(** Two records in each list. *)
Definition sca_two : pydict :=
  [("hits", PList [PDict [("name", PStr "A"); ("description", PStr "first");
                          ("status", PInt 1); ("policyId", PStr "p1")];
                   PDict [("name", PStr "B"); ("description", PStr "second");
                          ("status", PInt 0); ("policyId", PStr "p2")]]);
   ("total", PInt 2)].

Definition sia_two : pydict :=
  [("results",
    PList [PDict [("metadata", PDict [("name", PStr "C");
                                      ("description", PStr "third");
                                      ("status", PDict [("status", PStr "Active")]);
                                      ("policyId", PStr "q1")])];
           PDict [("metadata", PDict [("name", PStr "D");
                                      ("description", PStr "fourth");
                                      ("status", PDict [("status", PStr "Draft")]);
                                      ("policyId", PStr "q2")])]]);
   ("total", PInt 2)].

Definition two_each : world :=
  {| AWS_SECRET_NAME := Some "cyberark/api";
     AWS_REGION := None;
     get_secret_value := fun _ _ => Ok {| SecretString := Some (Some Sample.secret) |};
     requests_post := fun _ _ => Ok (Sample.token_response 200 "tok-1");
     requests_get := fun url _ =>
       if String.eqb url "https://acme.sca.cyberark.cloud/api/policies"
       then Ok {| status_code := 200; body := Some (PDict sca_two) |}
       else Ok {| status_code := 200; body := Some (PDict sia_two) |} |}.

(** The largest integer that converts to text: 4300 nines. *)
Definition most_digits : Z := 10 ^ int_max_str_digits - 1.

(** Both endpoints declare that total, with no record. *)
Definition sca_huge : pydict := [("hits", PList []); ("total", PInt most_digits)].

Definition sia_huge : pydict := [("results", PList []); ("total", PInt most_digits)].

Definition huge_totals : world :=
  {| AWS_SECRET_NAME := Some "cyberark/api";
     AWS_REGION := None;
     get_secret_value := fun _ _ => Ok {| SecretString := Some (Some Sample.secret) |};
     requests_post := fun _ _ => Ok (Sample.token_response 200 "tok-1");
     requests_get := fun url _ =>
       if String.eqb url "https://acme.sca.cyberark.cloud/api/policies"
       then Ok {| status_code := 200; body := Some (PDict sca_huge) |}
       else Ok {| status_code := 200; body := Some (PDict sia_huge) |} |}.

End Scenario.

(** ** Properties *)

Section Properties.
Context `{Repr}.

(** *** The monad and the loop *)

Lemma trace_bind {A B} (m : M A) (f : A -> M B) :
  trace (bind m f) =
  match outcome m with
  | Ok a => (trace m ++ trace (f a))%list
  | Raise _ => trace m
  end.
Proof.
  destruct m as [t [a | e]]; simpl; [| reflexivity].
  destruct (f a); reflexivity.
Qed.

Lemma outcome_bind {A B} (m : M A) (f : A -> M B) :
  outcome (bind m f) =
  match outcome m with
  | Ok a => outcome (f a)
  | Raise e => Raise e
  end.
Proof.
  destruct m as [t [a | e]]; simpl; [| reflexivity].
  destruct (f a); reflexivity.
Qed.

Lemma printed_app (t u : list event) :
  printed (t ++ u) = (printed t ++ printed u)%list.
Proof.
  induction t as [| e t IH]; simpl; [reflexivity |].
  destruct (printed_line e); simpl; now rewrite IH.
Qed.

Lemma lookup_app_other (k k' : string) (v : value) (d : pydict) :
  k <> k' -> lookup k (d ++ [(k', v)])%list = lookup k d.
Proof.
  intros Hne. induction d as [| [k0 v0] d IH]; simpl.
  - destruct (String.eqb_spec k k'); [contradiction | reflexivity].
  - now rewrite IH.
Qed.

Lemma py_get_dict (d : pydict) (key : string) (default : value) :
  py_get (PDict d) key default = Ok (field_or d key default).
Proof. unfold py_get, field_or. now destruct (lookup key d). Qed.

Lemma py_get_field (d : pydict) (key : string) :
  py_get (PDict d) key PNone = Ok (field d key).
Proof. apply py_get_dict. Qed.

(** A loop whose every round completes prints the rounds' lines in the
    order of the items and completes. *)
Lemma for_list_complete {A} (body : A -> M unit) (items : list A) :
  Forall (fun x => outcome (body x) = Ok tt) items ->
  for_list items body = (flat_map (fun x => trace (body x)) items, Ok tt).
Proof.
  induction 1 as [| x rest Hx _ IH]; [reflexivity |].
  simpl. rewrite IH.
  destruct (body x) as [t r]. simpl in Hx. subst r. reflexivity.
Qed.

(** *** One record *)

Lemma display_sca_policy_dict (policy : pydict) :
  display_sca_policy (PDict policy) =
  ([Print (nl ++ "  Name:        " ++ py_str (field policy "name"));
    Print ("  Description: " ++ py_str (field policy "description"));
    Print ("  Status:      " ++
           (if py_eq_int (field policy "status") 1 then "Active" else "Inactive"));
    Print ("  Policy ID:   " ++ py_str (field policy "policyId"))],
   Ok tt).
Proof.
  unfold display_sca_policy. rewrite !py_get_field. reflexivity.
Qed.

(** An SIA record whose [metadata] entry is a dict or absent, and whose
    [status] entry inside it is a dict or absent. *)
Lemma display_sia_policy_dict (policy metadata status : pydict) :
  field_or policy "metadata" (PDict []) = PDict metadata ->
  field_or metadata "status" (PDict []) = PDict status ->
  display_sia_policy (PDict policy) =
  ([Print (nl ++ "  Name:        " ++ py_str (field metadata "name"));
    Print ("  Description: " ++ py_str (field metadata "description"));
    Print ("  Status:      " ++ py_str (field status "status"));
    Print ("  Policy ID:   " ++ py_str (field metadata "policyId"))],
   Ok tt).
Proof.
  intros Hm Hs. unfold display_sia_policy.
  rewrite py_get_dict, Hm. cbn [lift bind].
  rewrite !py_get_field, py_get_dict, Hs. cbn [lift bind print emit app].
  rewrite py_get_field. reflexivity.
Qed.

Lemma display_sia_policy_complete (policy : value) :
  outcome (display_sia_policy policy) = Ok tt ->
  exists p metadata status,
    policy = PDict p
    /\ field_or p "metadata" (PDict []) = PDict metadata
    /\ field_or metadata "status" (PDict []) = PDict status.
Proof.
  intros Hok. destruct policy as [| b | n | f | s | l | p]; try discriminate Hok.
  unfold display_sia_policy in Hok. rewrite py_get_dict in Hok.
  destruct (field_or p "metadata" (PDict [])) as [| b | n | f | s | l | metadata] eqn:Hm;
    try discriminate Hok.
  cbn [lift bind] in Hok. rewrite !py_get_field, py_get_dict in Hok.
  cbn [lift bind print emit app] in Hok.
  destruct (field_or metadata "status" (PDict [])) as [| b | n | f | s | l | status] eqn:Hs;
    try discriminate Hok.
  now exists p, metadata, status.
Qed.

(** *** Computations that only print *)

Lemma no_network_app (t u : list event) :
  no_network (t ++ u) = no_network t && no_network u.
Proof. apply forallb_app. Qed.

Lemma no_network_bind {A B} (m : M A) (f : A -> M B) :
  no_network (trace m) = true ->
  (forall a, no_network (trace (f a)) = true) ->
  no_network (trace (bind m f)) = true.
Proof.
  intros Hm Hf. rewrite trace_bind.
  destruct (outcome m) as [a | e]; [| exact Hm].
  rewrite no_network_app, Hm, Hf. reflexivity.
Qed.

Lemma no_network_for_list {A} (body : A -> M unit) (items : list A) :
  (forall x, no_network (trace (body x)) = true) ->
  no_network (trace (for_list items body)) = true.
Proof.
  intros Hbody. induction items as [| x rest IH]; [reflexivity |].
  simpl. apply no_network_bind; [apply Hbody | intros _; exact IH].
Qed.

Lemma no_network_for_each (obj : value) (body : value -> M unit) :
  (forall x, no_network (trace (body x)) = true) ->
  no_network (trace (for_each obj body)) = true.
Proof.
  intros Hbody. unfold for_each.
  apply no_network_bind; [reflexivity | intros items].
  now apply no_network_for_list.
Qed.

Ltac only_prints :=
  repeat first
    [ reflexivity
    | apply no_network_for_each; intros ?
    | apply no_network_bind; [| intros ?] ].

Lemma display_sca_policy_prints (policy : value) :
  no_network (trace (display_sca_policy policy)) = true.
Proof. unfold display_sca_policy. only_prints. Qed.

Lemma display_sia_policy_prints (policy : value) :
  no_network (trace (display_sia_policy policy)) = true.
Proof. unfold display_sia_policy. only_prints. Qed.

Lemma report_prints (sca_data sia_data : value) :
  no_network (trace (report sca_data sia_data)) = true.
Proof.
  unfold report, display_sca_policies, display_sia_policies, main_summary.
  repeat first
    [ reflexivity
    | apply display_sca_policy_prints
    | apply display_sia_policy_prints
    | apply no_network_for_each; intros ?
    | apply no_network_bind; [| intros ?] ].
Qed.

Lemma no_network_In (t : list event) (e : event) :
  no_network t = true -> In e t -> is_network e = false.
Proof.
  intros Ht Hin. unfold no_network in Ht.
  rewrite forallb_forall in Ht. specialize (Ht e Hin).
  now destruct (is_network e).
Qed.

(** *** The service calls *)

Lemma get_secret_run (w : world) :
  get_secret w = ([SecretsManagerGet (REGION w) (SECRET_NAME w)], secret_payload w).
Proof.
  unfold get_secret, secret_payload. cbn [emit bind lift].
  destruct (get_secret_value w (REGION w) (SECRET_NAME w)) as [response | e];
    [| reflexivity].
  cbn [bind lift]. destruct (SecretString response) as [text |]; [| reflexivity].
  cbn [bind lift]. destruct (json_loads text); reflexivity.
Qed.

Lemma get_token_run (w : world) (secret : value) :
  get_token w secret =
  match token_request secret with
  | Ok (url, data) => ([HttpPost url data], token_reply w url data)
  | Raise e => ([], Raise e)
  end.
Proof.
  unfold get_token, token_request, token_reply.
  destruct (py_getitem secret "identity_tenant_id") as [tenant | e]; [| reflexivity].
  cbn [bind lift].
  destruct (py_getitem secret "client_id") as [client_id | e]; [| reflexivity].
  cbn [bind lift].
  destruct (py_getitem secret "client_secret") as [client_secret | e]; [| reflexivity].
  cbn [bind lift emit].
  match goal with
  | |- context [requests_post w ?u ?d] => destruct (requests_post w u d) as [response | e]
  end; [| reflexivity].
  cbn [bind lift].
  destruct (raise_for_status response) as [[] | e]; [| reflexivity].
  cbn [bind lift].
  destruct (json response) as [payload | e]; [| reflexivity].
  cbn [bind lift].
  destruct (py_getitem payload "access_token"); reflexivity.
Qed.

Lemma get_sca_policies_run (w : world) (subdomain token : value) :
  get_sca_policies w subdomain token =
  ([HttpGet (sca_url subdomain) (bearer token)],
   fetch_reply w (sca_url subdomain) (bearer token)).
Proof.
  unfold get_sca_policies, fetch_reply, sca_url, bearer. cbn [emit bind lift].
  match goal with
  | |- context [requests_get w ?u ?a] => destruct (requests_get w u a) as [response | e]
  end; [| reflexivity].
  cbn [bind lift].
  destruct (raise_for_status response) as [[] | e]; [| reflexivity].
  cbn [bind lift]. destruct (json response); reflexivity.
Qed.

Lemma get_sia_policies_run (w : world) (subdomain token : value) :
  get_sia_policies w subdomain token =
  ([HttpGet (sia_url subdomain) (bearer token)],
   fetch_reply w (sia_url subdomain) (bearer token)).
Proof.
  unfold get_sia_policies, fetch_reply, sia_url, bearer. cbn [emit bind lift].
  match goal with
  | |- context [requests_get w ?u ?a] => destruct (requests_get w u a) as [response | e]
  end; [| reflexivity].
  cbn [bind lift].
  destruct (raise_for_status response) as [[] | e]; [| reflexivity].
  cbn [bind lift]. destruct (json response); reflexivity.
Qed.

(** *** The run as a whole *)

Lemma main_fetch_and_report_run (w : world) (secret token : value) :
  main_fetch_and_report w secret token =
  match py_getitem secret "subdomain" with
  | Raise e => ([Print "[3/4] Retrieving SCA policies..."], Raise e)
  | Ok subdomain =>
      match fetch_reply w (sca_url subdomain) (bearer token) with
      | Raise e =>
          ([Print "[3/4] Retrieving SCA policies...";
            HttpGet (sca_url subdomain) (bearer token)], Raise e)
      | Ok sca_data =>
          match fetch_reply w (sia_url subdomain) (bearer token) with
          | Raise e =>
              ([Print "[3/4] Retrieving SCA policies...";
                HttpGet (sca_url subdomain) (bearer token);
                Print "      ✓ Done";
                Print "[4/4] Retrieving SIA policies...";
                HttpGet (sia_url subdomain) (bearer token)], Raise e)
          | Ok sia_data =>
              ([Print "[3/4] Retrieving SCA policies...";
                HttpGet (sca_url subdomain) (bearer token);
                Print "      ✓ Done";
                Print "[4/4] Retrieving SIA policies...";
                HttpGet (sia_url subdomain) (bearer token);
                Print "      ✓ Done"] ++ trace (report sca_data sia_data),
               outcome (report sca_data sia_data))%list
          end
      end
  end.
Proof.
  unfold main_fetch_and_report.
  destruct (py_getitem secret "subdomain") as [subdomain | e]; [| reflexivity].
  cbn [print emit bind lift app].
  rewrite get_sca_policies_run, get_sia_policies_run.
  destruct (fetch_reply w (sca_url subdomain) (bearer token)) as [sca_data | e];
    [| reflexivity].
  cbn [print emit bind lift app].
  destruct (fetch_reply w (sia_url subdomain) (bearer token)) as [sia_data | e];
    [| reflexivity].
  cbn [print emit bind lift app]. fold (report sca_data sia_data).
  destruct (report sca_data sia_data) as [t r]. reflexivity.
Qed.

Lemma main_run (w : world) :
  truthy_env (AWS_SECRET_NAME w) = true ->
  main w =
  match secret_payload w with
  | Raise e =>
      (banner ++ [SecretsManagerGet (REGION w) (SECRET_NAME w)], Raise e)%list
  | Ok secret =>
      match token_request secret with
      | Raise e =>
          (banner ++ [SecretsManagerGet (REGION w) (SECRET_NAME w);
                      Print "      ✓ Credentials retrieved";
                      Print "[2/4] Authenticating via OAuth 2.0..."], Raise e)%list
      | Ok (url, data) =>
          match token_reply w url data with
          | Raise e =>
              (banner ++ [SecretsManagerGet (REGION w) (SECRET_NAME w);
                          Print "      ✓ Credentials retrieved";
                          Print "[2/4] Authenticating via OAuth 2.0...";
                          HttpPost url data], Raise e)%list
          | Ok token =>
              (banner ++ [SecretsManagerGet (REGION w) (SECRET_NAME w);
                          Print "      ✓ Credentials retrieved";
                          Print "[2/4] Authenticating via OAuth 2.0...";
                          HttpPost url data;
                          Print "      ✓ Bearer token acquired"]
                 ++ trace (main_fetch_and_report w secret token),
               outcome (main_fetch_and_report w secret token))%list
          end
      end
  end.
Proof.
  intros Hname. unfold main, SECRET_NAME. rewrite Hname.
  cbn [negb print emit bind app]. rewrite get_secret_run.
  destruct (secret_payload w) as [secret | e]; [| reflexivity].
  cbn [print emit bind app]. rewrite get_token_run.
  destruct (token_request secret) as [[url data] | e]; [| reflexivity].
  destruct (token_reply w url data) as [token | e]; [| reflexivity].
  cbn [print emit bind app].
  destruct (main_fetch_and_report w secret token) as [t r]. reflexivity.
Qed.

(** *** Missing configuration *)

(** A run that gets both answers goes on to the report: its output is the
    eleven progress lines followed by what the report prints, and it ends
    as the report ends. *)
Lemma main_report_run
    (w : world) (secret token subdomain sca_data sia_data : value) :
  truthy_env (AWS_SECRET_NAME w) = true ->
  outcome (get_secret w) = Ok secret ->
  outcome (get_token w secret) = Ok token ->
  py_getitem secret "subdomain" = Ok subdomain ->
  outcome (get_sca_policies w subdomain token) = Ok sca_data ->
  outcome (get_sia_policies w subdomain token) = Ok sia_data ->
  outcome (main w) = outcome (report sca_data sia_data)
  /\ printed (trace (main w)) =
     (progress ++ printed (trace (report sca_data sia_data)))%list.
Proof.
  intros Hname Hsecret Htoken Hsub Hsca Hsia.
  rewrite get_secret_run in Hsecret. cbn [outcome snd] in Hsecret.
  rewrite get_token_run in Htoken.
  rewrite get_sca_policies_run in Hsca. cbn [outcome snd] in Hsca.
  rewrite get_sia_policies_run in Hsia. cbn [outcome snd] in Hsia.
  rewrite (main_run w Hname), Hsecret.
  destruct (token_request secret) as [[url data] | e']; [| discriminate Htoken].
  cbn [outcome snd] in Htoken. rewrite Htoken.
  rewrite main_fetch_and_report_run, Hsub, Hsca, Hsia.
  split; [reflexivity |].
  cbn [trace fst]. rewrite !printed_app. reflexivity.
Qed.

Lemma main_unconfigured_run (w : world) :
  truthy_env (AWS_SECRET_NAME w) = false ->
  main w =
    ([Print rule;
      Print "CyberArk SCA & SIA Policy Retriever (AWS Secrets Manager)";
      Print rule;
      Print (nl ++ "[ERROR] Missing AWS_SECRET_NAME environment variable.");
      Print "Set AWS_SECRET_NAME in your .env file or environment.";
      Print "See .env.example for reference."],
     Ok tt).
Proof.
  intros Hname. unfold main, SECRET_NAME. rewrite Hname. reflexivity.
Qed.

(** C4.  With [AWS_SECRET_NAME] unset or empty, [main] prints the banner and
    the three lines of the configuration error and returns normally: the
    trace holds no call to the secret store, the token endpoint or a policy
    endpoint, and no exception ends the run. *)
Theorem main_without_secret_name (w : world) :
  AWS_SECRET_NAME w = None \/ AWS_SECRET_NAME w = Some "" ->
  main w =
    ([Print rule;
      Print "CyberArk SCA & SIA Policy Retriever (AWS Secrets Manager)";
      Print rule;
      Print (nl ++ "[ERROR] Missing AWS_SECRET_NAME environment variable.");
      Print "Set AWS_SECRET_NAME in your .env file or environment.";
      Print "See .env.example for reference."],
     Ok tt)
  /\ no_network (trace (main w)) = true.
Proof.
  intros Hname.
  assert (Hfalse : truthy_env (AWS_SECRET_NAME w) = false)
    by (destruct Hname as [Hname | Hname]; rewrite Hname; reflexivity).
  rewrite (main_unconfigured_run w Hfalse). split; reflexivity.
Qed.

(** *** Status of an SCA record *)



(** *** Lenient formatting *)


(** *** Status of an SIA record *)


(** *** Token acquisition *)

Lemma token_post_in_main (w : world) (url : string) (data : pydict) :
  In (HttpPost url data) (trace (main w)) ->
  truthy_env (AWS_SECRET_NAME w) = true
  /\ exists secret,
       secret_payload w = Ok secret /\ token_request secret = Ok (url, data).
Proof.
  intros Hin.
  destruct (truthy_env (AWS_SECRET_NAME w)) eqn:Hname.
  - split; [reflexivity |].
    rewrite (main_run w Hname) in Hin.
    destruct (secret_payload w) as [secret | e].
    + exists secret. split; [reflexivity |].
      destruct (token_request secret) as [[url' data'] | e].
      * assert (Hpost : HttpPost url data = HttpPost url' data').
        { destruct (token_reply w url' data') as [token | e];
            cbn [trace fst banner app In] in Hin.
          - repeat (destruct Hin as [Hin | Hin]; [try discriminate Hin |]).
            + now symmetry.
            + exfalso.
              rewrite main_fetch_and_report_run in Hin.
              destruct (py_getitem secret "subdomain") as [subdomain | e];
                [| cbn [trace fst In] in Hin; intuition discriminate].
              destruct (fetch_reply w (sca_url subdomain) (bearer token)) as [sca_data | e];
                [| cbn [trace fst In] in Hin; intuition discriminate].
              destruct (fetch_reply w (sia_url subdomain) (bearer token)) as [sia_data | e];
                [| cbn [trace fst In] in Hin; intuition discriminate].
              cbn [trace fst app In] in Hin.
              repeat (destruct Hin as [Hin | Hin]; [discriminate Hin |]).
              apply (no_network_In _ _ (report_prints sca_data sia_data)) in Hin.
              discriminate Hin.
          - repeat (destruct Hin as [Hin | Hin]; [try discriminate Hin |]).
            + now symmetry.
            + destruct Hin. }
        now injection Hpost as -> ->.
      * exfalso. cbn [trace fst banner app In] in Hin. intuition discriminate.
    + exfalso. cbn [trace fst banner app In] in Hin. intuition discriminate.
  - exfalso. rewrite (main_unconfigured_run w Hname) in Hin.
    cbn [trace fst In] in Hin. intuition discriminate.
Qed.

(** C5, as amended.  When the token endpoint answers the POST of a run with
    a 4xx or 5xx status, the run ends there with the [HTTPError] of that
    status, and its trace holds no GET to a policy endpoint. *)
Theorem token_error_status_aborts
    (w : world) (url : string) (data : pydict) (r : http_response) :
  In (HttpPost url data) (trace (main w)) ->
  requests_post w url data = Ok r ->
  400 <= status_code r < 600 ->
  outcome (main w) = Raise (HTTPError (status_code r))
  /\ no_policy_fetch (trace (main w)) = true.
Proof.
  intros Hin Hpost Hstatus.
  destruct (token_post_in_main w url data Hin) as [Hname [secret [Hsecret Hreq]]].
  assert (Hreply : token_reply w url data = Raise (HTTPError (status_code r))).
  { unfold token_reply, raise_for_status. rewrite Hpost.
    replace (400 <=? status_code r) with true by (symmetry; apply Z.leb_le; lia).
    replace (status_code r <? 600) with true by (symmetry; apply Z.ltb_lt; lia).
    reflexivity. }
  rewrite (main_run w Hname), Hsecret, Hreq, Hreply.
  split; reflexivity.
Qed.

(** C8.  When the token endpoint answers with a 2xx status and a JSON body
    without an [access_token] entry, [get_token] ends with an exception and
    returns no token: a [KeyError] naming [access_token] when the body is an
    object, a [TypeError] when it is not one. *)
Theorem token_without_access_token_fails
    (w : world) (secret : value) (url : string) (data : pydict)
    (r : http_response) (payload : value) :
  In (HttpPost url data) (trace (get_token w secret)) ->
  requests_post w url data = Ok r ->
  200 <= status_code r < 300 ->
  body r = Some payload ->
  has_key payload "access_token" = false ->
  outcome (get_token w secret) =
    Raise (if is_dict payload then KeyError "access_token" else TypeError).
Proof.
  intros Hin Hpost Hstatus Hbody Hkey.
  rewrite get_token_run in Hin |- *.
  destruct (token_request secret) as [[url' data'] | e];
    [| destruct Hin].
  cbn [trace fst In] in Hin. destruct Hin as [Hin | []].
  injection Hin as <- <-.
  cbn [outcome snd]. unfold token_reply, raise_for_status, json.
  rewrite Hpost, Hbody.
  replace (status_code r <? 600) with true by (symmetry; apply Z.ltb_lt; lia).
  replace (400 <=? status_code r) with false by (symmetry; apply Z.leb_gt; lia).
  cbn [andb].
  destruct payload as [| b | n | f | s | l | d]; try reflexivity.
  unfold has_key in Hkey. cbn [py_getitem is_dict].
  destruct (lookup "access_token" d); [discriminate Hkey | reflexivity].
Qed.

(** *** A secret without [subdomain] *)

(** C6.  Let the stored secret decode to a payload without a [subdomain]
    entry.  Loading the secret succeeds and hands the payload on;
    [get_token] runs exactly as it would on the same payload with a
    [subdomain] entry added; and once [get_token] has returned a token,
    [main] ends with [KeyError] for [subdomain] right after announcing the
    SCA retrieval, without a GET to either policy endpoint. *)
Theorem missing_subdomain_fails_at_fetch (w : world) (payload : value) :
  truthy_env (AWS_SECRET_NAME w) = true ->
  get_secret_value w (REGION w) (SECRET_NAME w)
    = Ok {| SecretString := Some (Some payload) |} ->
  has_key payload "subdomain" = false ->
  outcome (get_secret w) = Ok payload
  /\ (forall d v, payload = PDict d ->
      get_token w (PDict (d ++ [("subdomain", v)])%list) = get_token w payload)
  /\ (forall token,
        outcome (get_token w payload) = Ok token ->
        outcome (main w) = Raise (KeyError "subdomain")
        /\ no_policy_fetch (trace (main w)) = true
        /\ last (printed (trace (main w))) "" = "[3/4] Retrieving SCA policies...").
Proof.
  intros Hname Hstore Hkey.
  assert (Hsecret : secret_payload w = Ok payload).
  { unfold secret_payload. rewrite Hstore. reflexivity. }
  split; [| split].
  - rewrite get_secret_run. exact Hsecret.
  - intros d v ->. rewrite !get_token_run. unfold token_request.
    cbn [py_getitem].
    rewrite !(lookup_app_other _ "subdomain") by discriminate.
    reflexivity.
  - intros token Htoken.
    rewrite get_token_run in Htoken.
    rewrite (main_run w Hname), Hsecret.
    destruct (token_request payload) as [[url data] | e] eqn:Hreq;
      [| discriminate Htoken].
    cbn [outcome snd] in Htoken. rewrite Htoken.
    rewrite main_fetch_and_report_run.
    assert (Hsub : py_getitem payload "subdomain" = Raise (KeyError "subdomain")).
    { unfold token_request in Hreq.
      destruct payload as [| b | n | f | s | l | d]; try discriminate Hreq.
      unfold has_key in Hkey. cbn [py_getitem].
      destruct (lookup "subdomain" d); [discriminate Hkey | reflexivity]. }
    rewrite Hsub. repeat split.
Qed.

(** *** The bearer token and the output *)

Lemma fetch_reply_same (w1 w2 : world) (url a1 a2 : string) :
  requests_get w1 url a1 = requests_get w2 url a2 ->
  fetch_reply w1 url a1 = fetch_reply w2 url a2.
Proof. intros Hget. unfold fetch_reply. now rewrite Hget. Qed.

Lemma fetch_and_report_same (w1 w2 : world) (secret t1 t2 : value) :
  (forall url, requests_get w1 url (bearer t1) = requests_get w2 url (bearer t2)) ->
  printed (trace (main_fetch_and_report w1 secret t1))
  = printed (trace (main_fetch_and_report w2 secret t2))
  /\ outcome (main_fetch_and_report w1 secret t1)
     = outcome (main_fetch_and_report w2 secret t2).
Proof.
  intros Hget. rewrite !main_fetch_and_report_run.
  destruct (py_getitem secret "subdomain") as [subdomain | e];
    [| split; reflexivity].
  rewrite (fetch_reply_same w1 w2 _ _ _ (Hget (sca_url subdomain))).
  rewrite (fetch_reply_same w1 w2 _ _ _ (Hget (sia_url subdomain))).
  destruct (fetch_reply w2 (sca_url subdomain) (bearer t2)) as [sca_data | e];
    [| split; reflexivity].
  destruct (fetch_reply w2 (sia_url subdomain) (bearer t2)) as [sia_data | e];
    split; reflexivity.
Qed.

(** C9.  Two runs with the same configured secret name, the same decoded
    secret and policy endpoints that answer the second run as they answered
    the first write the same text to standard output and end the same way,
    whatever the two tokens that the token endpoint returned. *)
Theorem output_independent_of_token
    (w1 w2 : world) (payload t1 t2 : value) :
  AWS_SECRET_NAME w1 = AWS_SECRET_NAME w2 ->
  outcome (get_secret w1) = Ok payload ->
  outcome (get_secret w2) = Ok payload ->
  outcome (get_token w1 payload) = Ok t1 ->
  outcome (get_token w2 payload) = Ok t2 ->
  (forall url, requests_get w1 url (bearer t1) = requests_get w2 url (bearer t2)) ->
  stdout (trace (main w1)) = stdout (trace (main w2))
  /\ outcome (main w1) = outcome (main w2).
Proof.
  intros Hname Hs1 Hs2 Ht1 Ht2 Hget.
  destruct (truthy_env (AWS_SECRET_NAME w1)) eqn:Hn1.
  - assert (Hn2 : truthy_env (AWS_SECRET_NAME w2) = true) by now rewrite <- Hname.
    rewrite get_secret_run in Hs1, Hs2. cbn [outcome snd] in Hs1, Hs2.
    rewrite get_token_run in Ht1, Ht2.
    rewrite (main_run w1 Hn1), (main_run w2 Hn2), Hs1, Hs2.
    destruct (token_request payload) as [[url data] | e]; [| discriminate Ht1].
    cbn [outcome snd] in Ht1, Ht2. rewrite Ht1, Ht2.
    destruct (fetch_and_report_same w1 w2 payload t1 t2 Hget) as [Hprinted Hout].
    split; [| exact Hout].
    unfold stdout. cbn [trace fst]. rewrite !printed_app, Hprinted. reflexivity.
  - assert (Hn2 : truthy_env (AWS_SECRET_NAME w2) = false) by now rewrite <- Hname.
    rewrite (main_unconfigured_run w1 Hn1), (main_unconfigured_run w2 Hn2).
    split; reflexivity.
Qed.

(** *** The summary *)

(** The limit is the one on the number of decimal digits. *)
Lemma within_str_limit_spec (n : Z) :
  within_str_limit n = true <-> Z.abs n < 10 ^ int_max_str_digits.
Proof.
  unfold within_str_limit. rewrite orb_true_iff, !Z.ltb_lt.
  split; [intros [Hbits | Hlt] | intros Hlt; now right]; [| exact Hlt].
  assert (Hpow : 2 ^ (3 * int_max_str_digits) <= 10 ^ int_max_str_digits).
  { rewrite Z.pow_mul_r by (unfold int_max_str_digits; lia).
    apply Z.pow_le_mono_l. change (2 ^ 3) with 8. lia. }
  assert (Hpos : 0 < 2 ^ (3 * int_max_str_digits))
    by (apply Z.pow_pos_nonneg; unfold int_max_str_digits; lia).
  destruct (Z.eq_dec (Z.abs n) 0) as [Hz | Hnz].
  - rewrite Hz. eapply Z.lt_le_trans; [exact Hpos | exact Hpow].
  - eapply Z.lt_le_trans; [| exact Hpow].
    apply Z.log2_lt_pow2; [| exact Hbits].
    pose proof (Z.abs_nonneg n). lia.
Qed.

Lemma main_summary_integers (sca_data sia_data : pydict) (a b : Z) :
  field_or sca_data "total" (PInt 0) = PInt a ->
  field_or sia_data "total" (PInt 0) = PInt b ->
  within_str_limit (a + b) = true ->
  main_summary (PDict sca_data) (PDict sia_data) =
    ([Print spaced_rule;
      Print ("TOTAL: " ++ str_int a ++ " SCA + " ++ str_int b
             ++ " SIA = " ++ str_int (a + b) ++ " policies");
      Print rule],
     Ok tt).
Proof.
  intros Ha Hb Hlimit. unfold main_summary. rewrite !py_get_dict, Ha, Hb.
  cbn [lift bind print emit app py_add as_int]. unfold py_str_computed.
  rewrite Hlimit. reflexivity.
Qed.

(** Two integer totals whose sum passes the conversion limit: the first
    rule is printed, then the f-string raises [ValueError], and no total
    line follows. *)
Lemma main_summary_past_limit (sca_data sia_data : pydict) (a b : Z) :
  field_or sca_data "total" (PInt 0) = PInt a ->
  field_or sia_data "total" (PInt 0) = PInt b ->
  within_str_limit (a + b) = false ->
  main_summary (PDict sca_data) (PDict sia_data) =
    ([Print spaced_rule], Raise ValueError).
Proof.
  intros Ha Hb Hlimit. unfold main_summary. rewrite !py_get_dict, Ha, Hb.
  cbn [lift bind print emit app py_add as_int]. unfold py_str_computed.
  rewrite Hlimit. reflexivity.
Qed.


(** *** Order of the report *)

Lemma printed_flat_map {A} (f : A -> list event) (items : list A) :
  printed (flat_map f items) = flat_map (fun x => printed (f x)) items.
Proof.
  induction items as [| x rest IH]; [reflexivity |].
  simpl. now rewrite printed_app, IH.
Qed.

(** In a text made of a preamble and blocks of [n] lines, the [i]-th block
    starts [n * i] lines after the preamble. *)
Lemma block_at {A B} (f : A -> list B) (n : nat) (items : list A)
    (pre post : list B) (i : nat) (x : A) :
  Forall (fun y => length (f y) = n) items ->
  nth_error items i = Some x ->
  firstn n (skipn (length pre + n * i) (pre ++ flat_map f items ++ post)) = f x.
Proof.
  intros Hlen Hnth.
  rewrite skipn_app, skipn_all2 by lia.
  replace (length pre + n * i - length pre)%nat with (n * i)%nat by lia.
  cbn [app]. clear pre.
  revert i Hnth. induction Hlen as [| y rest Hy Hrest IH]; intros i Hnth.
  - destruct i; discriminate Hnth.
  - destruct i as [| i].
    + injection Hnth as <-.
      rewrite Nat.mul_0_r. cbn [skipn flat_map]. rewrite <- app_assoc.
      rewrite firstn_app, <- Hy, firstn_all, Nat.sub_diag. cbn [firstn].
      apply app_nil_r.
    + cbn [nth_error] in Hnth. cbn [flat_map]. rewrite <- app_assoc.
      rewrite skipn_app, skipn_all2 by lia.
      replace (n * S i - length (f y))%nat with (n * i)%nat by lia.
      cbn [app]. now apply IH.
Qed.

Lemma display_sca_policies_run (sca_data : pydict) (hits : list value) :
  field_or sca_data "hits" (PList []) = PList hits ->
  Forall (fun p => is_dict p = true) hits ->
  display_sca_policies (PDict sca_data) =
  ([Print (nl ++ rule); Print "SCA POLICIES (sca.cyberark.cloud)"; Print rule]
     ++ flat_map (fun p => trace (display_sca_policy p)) hits,
   Ok tt)%list.
Proof.
  intros Hhits Hdict. unfold display_sca_policies, for_each.
  rewrite py_get_dict, Hhits. cbn [print emit lift bind app py_iter].
  rewrite for_list_complete; [reflexivity |].
  eapply Forall_impl; [| exact Hdict].
  intros [| b | n | f | s | l | p] Hp; try discriminate Hp.
  now rewrite display_sca_policy_dict.
Qed.

Lemma display_sia_policies_run (sia_data : pydict) (results : list value) :
  field_or sia_data "results" (PList []) = PList results ->
  Forall (fun p => outcome (display_sia_policy p) = Ok tt) results ->
  display_sia_policies (PDict sia_data) =
  ([Print (nl ++ rule); Print "SIA POLICIES (uap.cyberark.cloud)"; Print rule]
     ++ flat_map (fun p => trace (display_sia_policy p)) results,
   Ok tt)%list.
Proof.
  intros Hresults Hok. unfold display_sia_policies, for_each.
  rewrite py_get_dict, Hresults. cbn [print emit lift bind app py_iter].
  now rewrite for_list_complete.
Qed.

(** C10.  Take a run of [main] in which both endpoints answer with
    objects, [hits] being a list of objects and [results] a list of records
    that each display.  After the eleven progress lines the run prints the
    SCA heading, the four lines of each SCA record in the order of [hits],
    the SIA heading, the four lines of each SIA record in the order of
    [results], and then the summary.  So the [i]-th SCA record fills the
    four lines from line [14 + 4i] on, and the [j]-th SIA record the four
    lines from line [14 + 4 * len(hits) + 3 + 4j] on, after every SCA
    line. *)
Theorem report_preserves_order
    (w : world) (secret token subdomain : value)
    (sca_data sia_data : pydict) (hits results : list value) :
  truthy_env (AWS_SECRET_NAME w) = true ->
  outcome (get_secret w) = Ok secret ->
  outcome (get_token w secret) = Ok token ->
  py_getitem secret "subdomain" = Ok subdomain ->
  outcome (get_sca_policies w subdomain token) = Ok (PDict sca_data) ->
  outcome (get_sia_policies w subdomain token) = Ok (PDict sia_data) ->
  field_or sca_data "hits" (PList []) = PList hits ->
  field_or sia_data "results" (PList []) = PList results ->
  Forall (fun p => is_dict p = true) hits ->
  Forall (fun p => outcome (display_sia_policy p) = Ok tt) results ->
  let out := printed (trace (main w)) in
  out = (progress
         ++ [spaced_rule; "SCA POLICIES (sca.cyberark.cloud)"; rule]
         ++ flat_map (fun p => printed (trace (display_sca_policy p))) hits
         ++ [spaced_rule; "SIA POLICIES (uap.cyberark.cloud)"; rule]
         ++ flat_map (fun p => printed (trace (display_sia_policy p))) results
         ++ printed (trace (main_summary (PDict sca_data) (PDict sia_data))))%list
  /\ (forall i p, nth_error hits i = Some p ->
      firstn 4 (skipn (14 + 4 * i) out) = printed (trace (display_sca_policy p)))
  /\ (forall j q, nth_error results j = Some q ->
      firstn 4 (skipn (14 + 4 * length hits + 3 + 4 * j) out)
      = printed (trace (display_sia_policy q))).
Proof.
  intros Hname Hsecret Htoken Hsub Hfsca Hfsia Hhits Hresults Hdict Hok out.
  assert (Hout : out =
    (progress
       ++ [spaced_rule; "SCA POLICIES (sca.cyberark.cloud)"; rule]
       ++ flat_map (fun p => printed (trace (display_sca_policy p))) hits
       ++ [spaced_rule; "SIA POLICIES (uap.cyberark.cloud)"; rule]
       ++ flat_map (fun p => printed (trace (display_sia_policy p))) results
       ++ printed (trace (main_summary (PDict sca_data) (PDict sia_data))))%list).
  { subst out.
    destruct (main_report_run w secret token subdomain (PDict sca_data) (PDict sia_data)
                Hname Hsecret Htoken Hsub Hfsca Hfsia) as [_ Hprinted].
    rewrite Hprinted. unfold report.
    rewrite (display_sca_policies_run sca_data hits Hhits Hdict).
    rewrite (display_sia_policies_run sia_data results Hresults Hok).
    destruct (main_summary (PDict sca_data) (PDict sia_data)) as [ts rs].
    cbn [bind trace fst]. rewrite !printed_app, !printed_flat_map. reflexivity. }
  assert (Hsca4 : Forall (fun p => length (printed (trace (display_sca_policy p))) = 4%nat) hits).
  { eapply Forall_impl; [| exact Hdict].
    intros [| b | n | f | s | l | p] Hp; try discriminate Hp.
    now rewrite display_sca_policy_dict. }
  assert (Hsia4 : Forall (fun p => length (printed (trace (display_sia_policy p))) = 4%nat) results).
  { eapply Forall_impl; [| exact Hok].
    intros q Hq. destruct (display_sia_policy_complete q Hq) as [p [md [st [-> [Hm Hs]]]]].
    now rewrite (display_sia_policy_dict p md st Hm Hs). }
  assert (Hflat : length (flat_map (fun p => printed (trace (display_sca_policy p))) hits)
                  = (4 * length hits)%nat).
  { clear - Hsca4. induction Hsca4 as [| y rest Hy _ IH]; [reflexivity |].
    cbn [flat_map length]. rewrite length_app, Hy, IH. lia. }
  split; [exact Hout | split].
  - intros i p Hnth. rewrite Hout.
    rewrite (app_assoc progress).
    apply (block_at (fun p => printed (trace (display_sca_policy p))) 4 hits
             (progress ++ [spaced_rule; "SCA POLICIES (sca.cyberark.cloud)"; rule])
             _ i p Hsca4 Hnth).
  - intros j q Hnth. rewrite Hout.
    rewrite (app_assoc progress).
    rewrite (app_assoc (progress ++ _)).
    rewrite (app_assoc (_ ++ flat_map _ hits)).
    assert (Hlen : length
              (((progress ++ [spaced_rule; "SCA POLICIES (sca.cyberark.cloud)"; rule])
                  ++ flat_map (fun p => printed (trace (display_sca_policy p))) hits)
                 ++ [spaced_rule; "SIA POLICIES (uap.cyberark.cloud)"; rule])%list
            = (14 + 4 * length hits + 3)%nat).
    { rewrite !length_app, Hflat. reflexivity. }
    rewrite <- Hlen.
    apply (block_at (fun p => printed (trace (display_sia_policy p))) 4 results
             _ _ j q Hsia4 Hnth).
Qed.

(** ** Further properties of the script *)

(** *** Loading the secret *)


(** X2.  When the secret cannot be loaded, [main] stops right after the call to
    the store: the last line printed announces step 1 of 4, the exception
    of [get_secret] ends the run, and neither the token endpoint nor a
    policy endpoint is called. *)
Theorem main_stops_when_secret_fails (w : world) (e : exn) :
  truthy_env (AWS_SECRET_NAME w) = true ->
  outcome (get_secret w) = Raise e ->
  outcome (main w) = Raise e
  /\ calls (trace (main w)) = [SecretsManagerGet (REGION w) (AWS_SECRET_NAME w)]
  /\ printed (trace (main w)) =
     [rule;
      "CyberArk SCA & SIA Policy Retriever (AWS Secrets Manager)";
      rule;
      (nl ++ "[1/4] Retrieving credentials from AWS Secrets Manager...")%string].
Proof.
  intros Hname Hfail. rewrite get_secret_run in Hfail. cbn [outcome snd] in Hfail.
  rewrite (main_run w Hname), Hfail. repeat split.
Qed.

(** *** Requesting the token *)

(** X3.  A secret that is not an object, or lacks one of [identity_tenant_id],
    [client_id] and [client_secret], makes [get_token] fail before anything
    is sent: the trace is empty, and the exception is that of the first
    subscript that fails. *)
Theorem get_token_needs_credentials (w : world) (secret : value) :
  has_key secret "identity_tenant_id" && has_key secret "client_id"
    && has_key secret "client_secret" = false ->
  get_token w secret = ([], Raise (first_missing_credential secret)).
Proof.
  intros Hmissing. rewrite get_token_run. unfold token_request.
  destruct secret as [| b | n | f | s | l | d]; try reflexivity.
  unfold has_key in Hmissing. cbn [py_getitem first_missing_credential].
  destruct (lookup "identity_tenant_id" d); [| reflexivity].
  destruct (lookup "client_id" d); [| reflexivity].
  destruct (lookup "client_secret" d); [discriminate Hmissing | reflexivity].
Qed.

(** X4.  With the three credential fields present, [get_token] sends one POST
    to the tenant's [platformtoken] URL with the client-credentials form.
    When the answer passes [raise_for_status] and its body is an object with
    an [access_token] entry, the value of that entry is returned as it is,
    whatever its type. *)
Theorem get_token_success
    (w : world) (secret tenant client_id client_secret : value)
    (r : http_response) (payload token : value) :
  py_getitem secret "identity_tenant_id" = Ok tenant ->
  py_getitem secret "client_id" = Ok client_id ->
  py_getitem secret "client_secret" = Ok client_secret ->
  let url := "https://" ++ py_str tenant ++ ".id.cyberark.cloud/oauth2/platformtoken" in
  let form := [("grant_type", PStr "client_credentials");
               ("client_id", client_id);
               ("client_secret", client_secret)] in
  requests_post w url form = Ok r ->
  passes (status_code r) = true ->
  body r = Some payload ->
  py_getitem payload "access_token" = Ok token ->
  get_token w secret = ([HttpPost url form], Ok token).
Proof.
  intros Ht Hc Hs url form Hpost Hpass Hbody Htoken.
  rewrite get_token_run. unfold token_request. rewrite Ht, Hc, Hs.
  fold url. fold form. unfold token_reply, raise_for_status, json.
  rewrite Hpost, Hbody, Htoken.
  unfold passes in Hpass. apply negb_true_iff in Hpass. rewrite Hpass.
  reflexivity.
Qed.


(** *** Fetching the policies *)

(** X6.  Each fetcher sends one GET with the header [Bearer <token>]: the SCA
    fetcher to the [sca] host of the subdomain, the SIA fetcher to its [uap]
    host.  An answer that passes [raise_for_status] yields its decoded body,
    of whatever shape. *)
Theorem fetchers_success
    (w : world) (subdomain token : value) (r : http_response) (data : value) :
  passes (status_code r) = true ->
  body r = Some data ->
  let authorization := "Bearer " ++ py_str token in
  (let url := "https://" ++ py_str subdomain ++ ".sca.cyberark.cloud/api/policies" in
   requests_get w url authorization = Ok r ->
   get_sca_policies w subdomain token = ([HttpGet url authorization], Ok data))
  /\ (let url := "https://" ++ py_str subdomain ++ ".uap.cyberark.cloud/api/policies" in
      requests_get w url authorization = Ok r ->
      get_sia_policies w subdomain token = ([HttpGet url authorization], Ok data)).
Proof.
  intros Hpass Hbody authorization.
  unfold passes in Hpass. apply negb_true_iff in Hpass.
  split; intros url Hget.
  - rewrite get_sca_policies_run. unfold fetch_reply, sca_url, bearer.
    fold url. fold authorization. rewrite Hget.
    unfold raise_for_status, json. now rewrite Hpass, Hbody.
  - rewrite get_sia_policies_run. unfold fetch_reply, sia_url, bearer.
    fold url. fold authorization. rewrite Hget.
    unfold raise_for_status, json. now rewrite Hpass, Hbody.
Qed.

(** X7.  A 4xx or 5xx answer makes either fetcher raise [HTTPError] with that
    status after its one GET; the body of the answer is not read, even when
    it is valid JSON. *)
Theorem fetchers_error_status
    (w : world) (subdomain token : value) (r : http_response) :
  400 <= status_code r < 600 ->
  (requests_get w (sca_url subdomain) (bearer token) = Ok r ->
   get_sca_policies w subdomain token =
     ([HttpGet (sca_url subdomain) (bearer token)], Raise (HTTPError (status_code r))))
  /\ (requests_get w (sia_url subdomain) (bearer token) = Ok r ->
      get_sia_policies w subdomain token =
        ([HttpGet (sia_url subdomain) (bearer token)], Raise (HTTPError (status_code r)))).
Proof.
  intros Hstatus.
  assert (Hraise : raise_for_status r = Raise (HTTPError (status_code r))).
  { unfold raise_for_status.
    replace (400 <=? status_code r) with true by (symmetry; apply Z.leb_le; lia).
    replace (status_code r <? 600) with true by (symmetry; apply Z.ltb_lt; lia).
    reflexivity. }
  split; intros Hget.
  - rewrite get_sca_policies_run. unfold fetch_reply. now rewrite Hget, Hraise.
  - rewrite get_sia_policies_run. unfold fetch_reply. now rewrite Hget, Hraise.
Qed.

(** *** Fail-fast orchestration *)

Lemma call_kinds_app (t u : list event) :
  call_kinds (t ++ u) = (call_kinds t ++ call_kinds u)%list.
Proof.
  induction t as [| e t IH]; simpl; [reflexivity |].
  destruct (call_of e); simpl; now rewrite IH.
Qed.

Lemma no_network_call_kinds (t : list event) :
  no_network t = true -> call_kinds t = [].
Proof.
  induction t as [| e t IH]; [reflexivity |].
  unfold no_network. cbn [forallb call_kinds].
  intros Hnet. apply andb_prop in Hnet. destruct Hnet as [He Ht].
  destruct e; try discriminate He. cbn [call_of]. now apply IH.
Qed.

Lemma no_network_calls (t : list event) :
  no_network t = true -> calls t = [].
Proof.
  induction t as [| e t IH]; [reflexivity |].
  unfold no_network, calls. cbn [forallb filter].
  intros Hnet. apply andb_prop in Hnet. destruct Hnet as [He Ht].
  destruct e; try discriminate He. cbn [is_network]. now apply IH.
Qed.

Lemma calls_app (t u : list event) :
  calls (t ++ u) = (calls t ++ calls u)%list.
Proof. apply filter_app. Qed.

(** X8.  Whatever the world answers, the service calls of a run are an initial
    part of the sequence: secret store, token endpoint, policy endpoint,
    policy endpoint.  So no run asks for a token before it has read the
    secret, fetches before it has asked for a token, calls a service twice
    over, or makes a fifth call. *)
Theorem main_call_discipline (w : world) :
  is_prefix (call_kinds (trace (main w)))
            [SecretCall; TokenCall; FetchCall; FetchCall] = true.
Proof.
  destruct (truthy_env (AWS_SECRET_NAME w)) eqn:Hname.
  - rewrite (main_run w Hname).
    destruct (secret_payload w) as [secret | e]; [| reflexivity].
    destruct (token_request secret) as [[url data] | e]; [| reflexivity].
    destruct (token_reply w url data) as [token | e]; [| reflexivity].
    rewrite main_fetch_and_report_run.
    destruct (py_getitem secret "subdomain") as [subdomain | e]; [| reflexivity].
    destruct (fetch_reply w (sca_url subdomain) (bearer token)) as [sca_data | e];
      [| reflexivity].
    destruct (fetch_reply w (sia_url subdomain) (bearer token)) as [sia_data | e];
      [| reflexivity].
    cbn [trace fst]. rewrite !call_kinds_app.
    rewrite (no_network_call_kinds _ (report_prints sca_data sia_data)).
    reflexivity.
  - rewrite (main_unconfigured_run w Hname). reflexivity.
Qed.

(** X10.  When the SCA fetch fails, the run ends with the exception of the
    fetch: the SIA endpoint is not called, and nothing is printed after the
    line that announces step 3 of 4. *)
Theorem main_stops_when_sca_fetch_fails
    (w : world) (secret token subdomain : value) (e : exn) :
  truthy_env (AWS_SECRET_NAME w) = true ->
  outcome (get_secret w) = Ok secret ->
  outcome (get_token w secret) = Ok token ->
  py_getitem secret "subdomain" = Ok subdomain ->
  outcome (get_sca_policies w subdomain token) = Raise e ->
  outcome (main w) = Raise e
  /\ call_kinds (trace (main w)) = [SecretCall; TokenCall; FetchCall]
  /\ printed (trace (main w)) = firstn 8 progress.
Proof.
  intros Hname Hsecret Htoken Hsub Hsca.
  rewrite get_secret_run in Hsecret. cbn [outcome snd] in Hsecret.
  rewrite get_token_run in Htoken.
  rewrite get_sca_policies_run in Hsca. cbn [outcome snd] in Hsca.
  rewrite (main_run w Hname), Hsecret.
  destruct (token_request secret) as [[url data] | e']; [| discriminate Htoken].
  cbn [outcome snd] in Htoken. rewrite Htoken.
  rewrite main_fetch_and_report_run, Hsub, Hsca.
  repeat split.
Qed.

(** X11.  When the SCA fetch succeeds and the SIA fetch fails, the run ends with
    the exception of the SIA fetch and the SCA data are dropped: no section
    is printed, and the output is the ten progress lines up to the one
    that announces step 4 of 4, whatever the SCA endpoint returned. *)
Theorem main_discards_sca_when_sia_fetch_fails
    (w : world) (secret token subdomain sca_data : value) (e : exn) :
  truthy_env (AWS_SECRET_NAME w) = true ->
  outcome (get_secret w) = Ok secret ->
  outcome (get_token w secret) = Ok token ->
  py_getitem secret "subdomain" = Ok subdomain ->
  outcome (get_sca_policies w subdomain token) = Ok sca_data ->
  outcome (get_sia_policies w subdomain token) = Raise e ->
  outcome (main w) = Raise e
  /\ call_kinds (trace (main w)) = [SecretCall; TokenCall; FetchCall; FetchCall]
  /\ printed (trace (main w)) = firstn 10 progress.
Proof.
  intros Hname Hsecret Htoken Hsub Hsca Hsia.
  rewrite get_secret_run in Hsecret. cbn [outcome snd] in Hsecret.
  rewrite get_token_run in Htoken.
  rewrite get_sca_policies_run in Hsca. cbn [outcome snd] in Hsca.
  rewrite get_sia_policies_run in Hsia. cbn [outcome snd] in Hsia.
  rewrite (main_run w Hname), Hsecret.
  destruct (token_request secret) as [[url data] | e']; [| discriminate Htoken].
  cbn [outcome snd] in Htoken. rewrite Htoken.
  rewrite main_fetch_and_report_run, Hsub, Hsca, Hsia.
  repeat split.
Qed.

(** X12.  In a run that gets both answers, the service calls are exactly four,
    in this order: the store for the configured region and name, the POST
    of the credentials, the SCA GET and the SIA GET.  Both GETs use the
    same subdomain and carry the same [Authorization] header, built from
    the token of the one POST; the report adds no call. *)
Theorem main_calls_when_fetches_succeed
    (w : world)
    (secret tenant client_id client_secret token subdomain sca_data sia_data : value) :
  truthy_env (AWS_SECRET_NAME w) = true ->
  outcome (get_secret w) = Ok secret ->
  py_getitem secret "identity_tenant_id" = Ok tenant ->
  py_getitem secret "client_id" = Ok client_id ->
  py_getitem secret "client_secret" = Ok client_secret ->
  outcome (get_token w secret) = Ok token ->
  py_getitem secret "subdomain" = Ok subdomain ->
  outcome (get_sca_policies w subdomain token) = Ok sca_data ->
  outcome (get_sia_policies w subdomain token) = Ok sia_data ->
  calls (trace (main w)) =
    [SecretsManagerGet (REGION w) (AWS_SECRET_NAME w);
     HttpPost ("https://" ++ py_str tenant ++ ".id.cyberark.cloud/oauth2/platformtoken")
              [("grant_type", PStr "client_credentials");
               ("client_id", client_id);
               ("client_secret", client_secret)];
     HttpGet ("https://" ++ py_str subdomain ++ ".sca.cyberark.cloud/api/policies")
             ("Bearer " ++ py_str token);
     HttpGet ("https://" ++ py_str subdomain ++ ".uap.cyberark.cloud/api/policies")
             ("Bearer " ++ py_str token)].
Proof.
  intros Hname Hsecret Ht Hc Hs Htoken Hsub Hsca Hsia.
  rewrite get_secret_run in Hsecret. cbn [outcome snd] in Hsecret.
  rewrite get_token_run in Htoken.
  rewrite get_sca_policies_run in Hsca. cbn [outcome snd] in Hsca.
  rewrite get_sia_policies_run in Hsia. cbn [outcome snd] in Hsia.
  rewrite (main_run w Hname), Hsecret.
  unfold token_request in *. rewrite Ht, Hc, Hs in *.
  cbn [outcome snd] in Htoken. rewrite Htoken.
  rewrite main_fetch_and_report_run, Hsub, Hsca, Hsia.
  cbn [trace fst]. rewrite !calls_app.
  rewrite (no_network_calls _ (report_prints sca_data sia_data)).
  reflexivity.
Qed.

(** X13.  The output of a run is decided by the answers of the two policy
    endpoints alone.  Two runs that load a secret, get a token and get the
    same two answers print the same text and end the same way, whatever
    the secret name, the region, the tenant, the client id, the client
    secret, the subdomain and the token were: none of them reaches
    standard output. *)
Theorem output_independent_of_credentials
    (w1 w2 : world) (secret1 secret2 t1 t2 sub1 sub2 : value) :
  truthy_env (AWS_SECRET_NAME w1) = true ->
  truthy_env (AWS_SECRET_NAME w2) = true ->
  outcome (get_secret w1) = Ok secret1 ->
  outcome (get_secret w2) = Ok secret2 ->
  outcome (get_token w1 secret1) = Ok t1 ->
  outcome (get_token w2 secret2) = Ok t2 ->
  py_getitem secret1 "subdomain" = Ok sub1 ->
  py_getitem secret2 "subdomain" = Ok sub2 ->
  outcome (get_sca_policies w1 sub1 t1) = outcome (get_sca_policies w2 sub2 t2) ->
  outcome (get_sia_policies w1 sub1 t1) = outcome (get_sia_policies w2 sub2 t2) ->
  stdout (trace (main w1)) = stdout (trace (main w2))
  /\ outcome (main w1) = outcome (main w2).
Proof.
  intros Hn1 Hn2 Hs1 Hs2 Ht1 Ht2 Hsub1 Hsub2 Hsca Hsia.
  rewrite get_secret_run in Hs1, Hs2. cbn [outcome snd] in Hs1, Hs2.
  rewrite get_token_run in Ht1, Ht2.
  rewrite !get_sca_policies_run in Hsca. rewrite !get_sia_policies_run in Hsia.
  cbn [outcome snd] in Hsca, Hsia.
  rewrite (main_run w1 Hn1), (main_run w2 Hn2), Hs1, Hs2.
  destruct (token_request secret1) as [[url1 data1] | e]; [| discriminate Ht1].
  destruct (token_request secret2) as [[url2 data2] | e]; [| discriminate Ht2].
  cbn [outcome snd] in Ht1, Ht2. rewrite Ht1, Ht2.
  rewrite !main_fetch_and_report_run, Hsub1, Hsub2, Hsca, Hsia.
  destruct (fetch_reply w2 (sca_url sub2) (bearer t2)) as [sca_data | e];
    [| split; reflexivity].
  destruct (fetch_reply w2 (sia_url sub2) (bearer t2)) as [sia_data | e];
    [| split; reflexivity].
  split; [| reflexivity].
  unfold stdout. cbn [trace fst]. rewrite !printed_app. reflexivity.
Qed.

(** *** Malformed and empty responses *)

(** X14.  A response that is not an object stops either section right after its
    heading with [AttributeError]; so does, with [TypeError], an object
    whose [hits] or [results] entry is [null], a number or a boolean. *)
Theorem sections_reject_malformed_response :
  (forall data, is_dict data = false ->
     display_sca_policies data = (sca_heading, Raise AttributeError)
     /\ display_sia_policies data = (sia_heading, Raise AttributeError))
  /\ (forall d v, lookup "hits" d = Some v -> is_iterable v = false ->
        display_sca_policies (PDict d) = (sca_heading, Raise TypeError))
  /\ (forall d v, lookup "results" d = Some v -> is_iterable v = false ->
        display_sia_policies (PDict d) = (sia_heading, Raise TypeError)).
Proof.
  split; [| split].
  - intros [| b | n | f | s | l | d] Hd; try discriminate Hd; split; reflexivity.
  - intros d v Hv Hiter. unfold display_sca_policies, for_each.
    rewrite py_get_dict. unfold field_or. rewrite Hv.
    destruct v; try discriminate Hiter; reflexivity.
  - intros d v Hv Hiter. unfold display_sia_policies, for_each.
    rewrite py_get_dict. unfold field_or. rewrite Hv.
    destruct v; try discriminate Hiter; reflexivity.
Qed.

(** X15.  A response without a [hits] (or [results]) entry is displayed like one
    with an empty list: the heading alone, and the section completes. *)
Theorem sections_of_empty_response :
  (forall d, lookup "hits" d = None \/ lookup "hits" d = Some (PList []) ->
     display_sca_policies (PDict d) = (sca_heading, Ok tt))
  /\ (forall d, lookup "results" d = None \/ lookup "results" d = Some (PList []) ->
        display_sia_policies (PDict d) = (sia_heading, Ok tt)).
Proof.
  split; intros d [Hd | Hd].
  - unfold display_sca_policies, for_each. rewrite py_get_dict.
    unfold field_or. rewrite Hd. reflexivity.
  - unfold display_sca_policies, for_each. rewrite py_get_dict.
    unfold field_or. rewrite Hd. reflexivity.
  - unfold display_sia_policies, for_each. rewrite py_get_dict.
    unfold field_or. rewrite Hd. reflexivity.
  - unfold display_sia_policies, for_each. rewrite py_get_dict.
    unfold field_or. rewrite Hd. reflexivity.
Qed.

(** A loop stops at the first round that raises: the rounds before it
    have run, the ones after it never start. *)
Lemma for_list_stops {A} (body : A -> M unit) (done rest : list A) (bad : A) (e : exn) :
  Forall (fun x => outcome (body x) = Ok tt) done ->
  outcome (body bad) = Raise e ->
  for_list (done ++ bad :: rest) body =
    ((flat_map (fun x => trace (body x)) done ++ trace (body bad))%list, Raise e).
Proof.
  intros Hdone Hbad. induction Hdone as [| x xs Hx _ IH].
  - cbn [app flat_map for_list].
    destruct (body bad) as [t r]. cbn [outcome snd] in Hbad. subst r. reflexivity.
  - cbn [app flat_map for_list]. rewrite IH.
    destruct (body x) as [t r]. cbn [outcome snd] in Hx. subst r.
    cbn [bind trace fst]. now rewrite app_assoc.
Qed.

(** X16.  A record that cannot be displayed ends its section there: the records
    before it stay printed, in order; the records after it are not shown.
    For SCA the failing record is one that is not an object, and none of its
    lines is printed; for SIA the lines that the failing record printed
    before its exception stay too. *)
Theorem sections_stop_at_bad_record :
  (forall d shown bad rest,
     lookup "hits" d = Some (PList (shown ++ bad :: rest)) ->
     Forall (fun p => is_dict p = true) shown ->
     is_dict bad = false ->
     display_sca_policies (PDict d) =
       ((sca_heading ++ flat_map (fun p => trace (display_sca_policy p)) shown)%list,
        Raise AttributeError))
  /\ (forall d shown bad rest e,
        lookup "results" d = Some (PList (shown ++ bad :: rest)) ->
        Forall (fun p => outcome (display_sia_policy p) = Ok tt) shown ->
        outcome (display_sia_policy bad) = Raise e ->
        display_sia_policies (PDict d) =
          ((sia_heading ++ flat_map (fun p => trace (display_sia_policy p)) shown
              ++ trace (display_sia_policy bad))%list,
           Raise e)).
Proof.
  split.
  - intros d shown bad rest Hhits Hshown Hbad.
    unfold display_sca_policies, for_each. rewrite py_get_dict.
    unfold field_or. rewrite Hhits. cbn [print emit lift bind app py_iter].
    rewrite (for_list_stops display_sca_policy shown rest bad AttributeError).
    + assert (Hnone : trace (display_sca_policy bad) = [])
        by (destruct bad; try discriminate Hbad; reflexivity).
      rewrite Hnone, app_nil_r. reflexivity.
    + eapply Forall_impl; [| exact Hshown].
      intros [| b | n | f | s | l | p] Hp; try discriminate Hp.
      now rewrite display_sca_policy_dict.
    + destruct bad; try discriminate Hbad; reflexivity.
  - intros d shown bad rest e Hresults Hshown Hbad.
    unfold display_sia_policies, for_each. rewrite py_get_dict.
    unfold field_or. rewrite Hresults. cbn [print emit lift bind app py_iter].
    rewrite (for_list_stops display_sia_policy shown rest bad e Hshown Hbad).
    reflexivity.
Qed.

(** X17.  An SIA record is displayed line by line, so a record can fail half
    way.  With a [metadata] entry that is not an object (a [null], a string)
    nothing of the record is printed; with a [status] entry inside
    [metadata] that is not an object (a plain string such as "Active") the
    name and description lines are printed and the record then fails.  Both
    are [AttributeError]. *)
Theorem sia_record_with_flat_status_fails :
  (forall p v, lookup "metadata" p = Some v -> is_dict v = false ->
     display_sia_policy (PDict p) = ([], Raise AttributeError))
  /\ (forall p metadata v,
        lookup "metadata" p = Some (PDict metadata) ->
        lookup "status" metadata = Some v ->
        is_dict v = false ->
        display_sia_policy (PDict p) =
          ([Print (nl ++ "  Name:        " ++ py_str (field metadata "name"));
            Print ("  Description: " ++ py_str (field metadata "description"))],
           Raise AttributeError)).
Proof.
  split.
  - intros p v Hv Hd. unfold display_sia_policy. rewrite py_get_dict.
    unfold field_or. rewrite Hv. destruct v; try discriminate Hd; reflexivity.
  - intros p metadata v Hm Hv Hd. unfold display_sia_policy.
    rewrite py_get_dict. unfold field_or at 1. rewrite Hm. cbn [lift bind].
    rewrite !py_get_field, py_get_dict. unfold field_or at 1. rewrite Hv.
    destruct v; try discriminate Hd; reflexivity.
Qed.

(** X18.  The number of lines of a section follows the records actually
    received, four per record after the three of the heading; the declared
    [total] has no part in it. *)
Theorem section_lengths (d : pydict) (items : list value) :
  (lookup "hits" d = Some (PList items) ->
   Forall (fun p => is_dict p = true) items ->
   length (printed (trace (display_sca_policies (PDict d)))) = (3 + 4 * length items)%nat)
  /\ (lookup "results" d = Some (PList items) ->
      Forall (fun p => outcome (display_sia_policy p) = Ok tt) items ->
      length (printed (trace (display_sia_policies (PDict d)))) = (3 + 4 * length items)%nat).
Proof.
  split.
  - intros Hhits Hdict.
    rewrite (display_sca_policies_run d items);
      [| unfold field_or; now rewrite Hhits | exact Hdict].
    cbn [trace fst]. rewrite printed_app, length_app, printed_flat_map.
    cbn [printed printed_line length].
    assert (Hflat : length (flat_map (fun p => printed (trace (display_sca_policy p))) items)
                    = (4 * length items)%nat).
    { clear Hhits. induction Hdict as [| y rest Hy _ IH]; [reflexivity |].
      cbn [flat_map length]. rewrite length_app, IH.
      destruct y; try discriminate Hy. rewrite display_sca_policy_dict.
      cbn [trace fst printed printed_line length]. lia. }
    rewrite Hflat. reflexivity.
  - intros Hresults Hok.
    rewrite (display_sia_policies_run d items);
      [| unfold field_or; now rewrite Hresults | exact Hok].
    cbn [trace fst]. rewrite printed_app, length_app, printed_flat_map.
    cbn [printed printed_line length].
    assert (Hflat : length (flat_map (fun p => printed (trace (display_sia_policy p))) items)
                    = (4 * length items)%nat).
    { clear Hresults. induction Hok as [| y rest Hy _ IH]; [reflexivity |].
      cbn [flat_map length]. rewrite length_app, IH.
      destruct (display_sia_policy_complete y Hy) as [p [md [st [-> [Hm Hs]]]]].
      rewrite (display_sia_policy_dict p md st Hm Hs).
      cbn [trace fst printed printed_line length]. lia. }
    rewrite Hflat. reflexivity.
Qed.

(** *** Totals that are not integers *)




(** *** A complete run *)

(** X21.  When the secret loads, the token is granted, both endpoints answer
    with objects whose records display and whose totals are integers with a
    sum within the limit of the conversion of integers to text, the run
    returns normally, and its output is, in this order: the eleven
    progress lines, the SCA heading and records, the SIA heading and
    records, and the summary with the declared totals and their sum. *)
Theorem main_complete_run
    (w : world) (secret token subdomain : value)
    (sca_data sia_data : pydict) (hits results : list value) (a b : Z) :
  truthy_env (AWS_SECRET_NAME w) = true ->
  outcome (get_secret w) = Ok secret ->
  outcome (get_token w secret) = Ok token ->
  py_getitem secret "subdomain" = Ok subdomain ->
  outcome (get_sca_policies w subdomain token) = Ok (PDict sca_data) ->
  outcome (get_sia_policies w subdomain token) = Ok (PDict sia_data) ->
  field_or sca_data "hits" (PList []) = PList hits ->
  field_or sia_data "results" (PList []) = PList results ->
  Forall (fun p => is_dict p = true) hits ->
  Forall (fun p => outcome (display_sia_policy p) = Ok tt) results ->
  field_or sca_data "total" (PInt 0) = PInt a ->
  field_or sia_data "total" (PInt 0) = PInt b ->
  within_str_limit (a + b) = true ->
  let total_line :=
    "TOTAL: " ++ str_int a ++ " SCA + " ++ str_int b
    ++ " SIA = " ++ str_int (a + b) ++ " policies" in
  outcome (main w) = Ok tt
  /\ printed (trace (main w)) =
     (progress
      ++ [spaced_rule; "SCA POLICIES (sca.cyberark.cloud)"; rule]
      ++ flat_map (fun p => printed (trace (display_sca_policy p))) hits
      ++ [spaced_rule; "SIA POLICIES (uap.cyberark.cloud)"; rule]
      ++ flat_map (fun p => printed (trace (display_sia_policy p))) results
      ++ [spaced_rule; total_line; rule])%list.
Proof.
  intros Hname Hsecret Htoken Hsub Hsca Hsia Hhits Hresults Hdict Hok Ha Hb Hlimit
         total_line.
  rewrite get_secret_run in Hsecret. cbn [outcome snd] in Hsecret.
  rewrite get_token_run in Htoken.
  rewrite get_sca_policies_run in Hsca. cbn [outcome snd] in Hsca.
  rewrite get_sia_policies_run in Hsia. cbn [outcome snd] in Hsia.
  rewrite (main_run w Hname), Hsecret.
  destruct (token_request secret) as [[url data] | e']; [| discriminate Htoken].
  cbn [outcome snd] in Htoken. rewrite Htoken.
  rewrite main_fetch_and_report_run, Hsub, Hsca, Hsia.
  unfold report.
  rewrite (display_sca_policies_run sca_data hits Hhits Hdict).
  rewrite (display_sia_policies_run sia_data results Hresults Hok).
  rewrite (main_summary_integers sca_data sia_data a b Ha Hb Hlimit).
  cbn [bind trace outcome fst snd].
  split; [reflexivity |].
  rewrite !printed_app, !printed_flat_map. reflexivity.
Qed.

(** *** Stopping at the token, and the region setting *)

(** X9.  When [get_token] fails, for whatever reason (a credential field
    missing from the secret, a transport failure, an error status, a body
    without a token), the run ends with that exception: no policy endpoint
    is called, and the last line printed announces step 2 of 4. *)
Theorem main_stops_when_token_fails (w : world) (secret : value) (e : exn) :
  truthy_env (AWS_SECRET_NAME w) = true ->
  outcome (get_secret w) = Ok secret ->
  outcome (get_token w secret) = Raise e ->
  outcome (main w) = Raise e
  /\ no_policy_fetch (trace (main w)) = true
  /\ printed (trace (main w)) = firstn 6 progress.
Proof.
  intros Hname Hsecret Htoken.
  rewrite get_secret_run in Hsecret. cbn [outcome snd] in Hsecret.
  rewrite get_token_run in Htoken.
  rewrite (main_run w Hname), Hsecret.
  destruct (token_request secret) as [[url data] | e'].
  - cbn [outcome snd] in Htoken. rewrite Htoken. repeat split.
  - cbn [outcome snd] in Htoken. injection Htoken as ->. repeat split.
Qed.

(** X22.  The two settings treat the empty string differently.  An empty
    [AWS_SECRET_NAME] counts as unset and no call is made; an empty
    [AWS_REGION] is not replaced by the default and goes to the store as
    it is.  Only an unset [AWS_REGION] gives [us-east-2]. *)
Theorem empty_settings (w : world) :
  (AWS_SECRET_NAME w = Some "" -> calls (trace (main w)) = [])
  /\ (truthy_env (AWS_SECRET_NAME w) = true ->
      AWS_REGION w = Some "" ->
      hd_error (calls (trace (main w)))
      = Some (SecretsManagerGet "" (AWS_SECRET_NAME w)))
  /\ (truthy_env (AWS_SECRET_NAME w) = true ->
      AWS_REGION w = None ->
      hd_error (calls (trace (main w)))
      = Some (SecretsManagerGet "us-east-2" (AWS_SECRET_NAME w))).
Proof.
  assert (Hhead : truthy_env (AWS_SECRET_NAME w) = true ->
                  hd_error (calls (trace (main w)))
                  = Some (SecretsManagerGet (REGION w) (AWS_SECRET_NAME w))).
  { intros Hname. rewrite (main_run w Hname).
    destruct (secret_payload w) as [secret | e]; [| reflexivity].
    destruct (token_request secret) as [[url data] | e]; [| reflexivity].
    destruct (token_reply w url data) as [token | e]; reflexivity. }
  split; [| split].
  - intros Hname. rewrite main_unconfigured_run by (now rewrite Hname). reflexivity.
  - intros Hname Hregion. rewrite (Hhead Hname). unfold REGION. now rewrite Hregion.
  - intros Hname Hregion. rewrite (Hhead Hname). unfold REGION. now rewrite Hregion.
Qed.

Lemma main_past_limit_run
    (w : world) (secret token subdomain : value)
    (sca_data sia_data : pydict) (a b : Z) :
  truthy_env (AWS_SECRET_NAME w) = true ->
  outcome (get_secret w) = Ok secret ->
  outcome (get_token w secret) = Ok token ->
  py_getitem secret "subdomain" = Ok subdomain ->
  outcome (get_sca_policies w subdomain token) = Ok (PDict sca_data) ->
  outcome (get_sia_policies w subdomain token) = Ok (PDict sia_data) ->
  outcome (display_sca_policies (PDict sca_data)) = Ok tt ->
  outcome (display_sia_policies (PDict sia_data)) = Ok tt ->
  field_or sca_data "total" (PInt 0) = PInt a ->
  field_or sia_data "total" (PInt 0) = PInt b ->
  within_str_limit (a + b) = false ->
  outcome (main w) = Raise ValueError
  /\ printed (trace (main w)) =
     (progress
      ++ printed (trace (display_sca_policies (PDict sca_data)))
      ++ printed (trace (display_sia_policies (PDict sia_data)))
      ++ [spaced_rule])%list.
Proof.
  intros Hname Hsecret Htoken Hsub Hfsca Hfsia Hsca Hsia Ha Hb Hlimit.
  destruct (main_report_run w secret token subdomain (PDict sca_data) (PDict sia_data)
              Hname Hsecret Htoken Hsub Hfsca Hfsia) as [Hout Hprinted].
  rewrite Hout, Hprinted. unfold report.
  rewrite (main_summary_past_limit sca_data sia_data a b Ha Hb Hlimit).
  destruct (display_sca_policies (PDict sca_data)) as [t1 r1].
  destruct (display_sia_policies (PDict sia_data)) as [t2 r2].
  cbn [outcome snd] in Hsca, Hsia. subst r1 r2.
  cbn [bind trace outcome fst snd].
  split; [reflexivity |].
  rewrite !printed_app. reflexivity.
Qed.

(** X23.  Take a run of [main] in which both endpoints answer with
    objects whose sections display and whose declared totals are
    integers.  When the sum of the totals passes the limit of the
    conversion of integers to text (more than 4300 digits), the run ends
    with [ValueError] after the first rule of the summary: the sections and
    that rule are printed, the total line is not. *)
Theorem main_total_past_str_limit
    (w : world) (secret token subdomain : value)
    (sca_data sia_data : pydict) (a b : Z) :
  truthy_env (AWS_SECRET_NAME w) = true ->
  outcome (get_secret w) = Ok secret ->
  outcome (get_token w secret) = Ok token ->
  py_getitem secret "subdomain" = Ok subdomain ->
  outcome (get_sca_policies w subdomain token) = Ok (PDict sca_data) ->
  outcome (get_sia_policies w subdomain token) = Ok (PDict sia_data) ->
  outcome (display_sca_policies (PDict sca_data)) = Ok tt ->
  outcome (display_sia_policies (PDict sia_data)) = Ok tt ->
  field_or sca_data "total" (PInt 0) = PInt a ->
  field_or sia_data "total" (PInt 0) = PInt b ->
  within_str_limit (a + b) = false ->
  outcome (main w) = Raise ValueError
  /\ printed (trace (main w)) =
     (progress
      ++ printed (trace (display_sca_policies (PDict sca_data)))
      ++ printed (trace (display_sia_policies (PDict sia_data)))
      ++ [spaced_rule])%list.
Proof.
  intros Hname Hsecret Htoken Hsub Hfsca Hfsia Hsca Hsia Ha Hb Hlimit.
  exact (main_past_limit_run w secret token subdomain sca_data sia_data a b
           Hname Hsecret Htoken Hsub Hfsca Hfsia Hsca Hsia Ha Hb Hlimit).
Qed.

End Properties.

(** ** Instances of the properties *)

Lemma main_without_secret_name_witness :
  no_network
    (trace (@main plain_repr
              (Sample.world_with None Sample.secret (Sample.token_response 200 "tok-1"))))
  = true.
Proof.
  apply (@main_without_secret_name plain_repr
           (Sample.world_with None Sample.secret (Sample.token_response 200 "tok-1"))).
  left. reflexivity.
Defined.



Lemma token_error_status_aborts_witness :
  outcome (@main plain_repr
             (Sample.world_with (Some "cyberark/api") Sample.secret
                                (Sample.token_response 401 "tok-1")))
  = Raise (HTTPError 401)
  /\ no_policy_fetch
       (trace (@main plain_repr
                 (Sample.world_with (Some "cyberark/api") Sample.secret
                                    (Sample.token_response 401 "tok-1"))))
     = true.
Proof.
  apply (@token_error_status_aborts plain_repr
           (Sample.world_with (Some "cyberark/api") Sample.secret
                              (Sample.token_response 401 "tok-1"))
           Sample.token_url Sample.token_form (Sample.token_response 401 "tok-1")).
  - vm_compute. do 7 right. left. reflexivity.
  - reflexivity.
  - simpl. lia.
Defined.

(** C5, as first stated: every status outside 200..299 from the token
    endpoint would keep the run from the policy endpoints.  A 304 answer
    passes [raise_for_status]; with an [access_token] in its body the run
    goes on to both GETs. *)
Lemma token_status_304_reaches_fetch :
  ~ (forall (R : Repr) (w : world) (url : string) (data : pydict) (r : http_response),
        In (HttpPost url data) (trace (@main R w)) ->
        requests_post w url data = Ok r ->
        ~ (200 <= status_code r < 300) ->
        no_policy_fetch (trace (@main R w)) = true).
Proof.
  intros Hclaim.
  specialize (Hclaim plain_repr
                (Sample.world_with (Some "cyberark/api") Sample.secret
                                   (Sample.token_response 304 "tok-1"))
                Sample.token_url Sample.token_form
                (Sample.token_response 304 "tok-1")).
  assert (Hfetch : no_policy_fetch
            (trace (@main plain_repr
                      (Sample.world_with (Some "cyberark/api") Sample.secret
                                         (Sample.token_response 304 "tok-1"))))
          = true).
  { apply Hclaim.
    - vm_compute. do 7 right. left. reflexivity.
    - reflexivity.
    - simpl. lia. }
  vm_compute in Hfetch. discriminate Hfetch.
Qed.

Lemma token_without_access_token_fails_witness :
  outcome (@get_token plain_repr
             (Sample.world_with (Some "cyberark/api") Sample.secret
                {| status_code := 200;
                   body := Some (PDict [("token_type", PStr "Bearer")]) |})
             Sample.secret)
  = Raise (KeyError "access_token").
Proof.
  apply (@token_without_access_token_fails plain_repr
           (Sample.world_with (Some "cyberark/api") Sample.secret
              {| status_code := 200;
                 body := Some (PDict [("token_type", PStr "Bearer")]) |})
           Sample.secret Sample.token_url Sample.token_form
           {| status_code := 200;
              body := Some (PDict [("token_type", PStr "Bearer")]) |}
           (PDict [("token_type", PStr "Bearer")])).
  - vm_compute. left. reflexivity.
  - reflexivity.
  - simpl. lia.
  - reflexivity.
  - reflexivity.
Defined.

Lemma missing_subdomain_fails_at_fetch_witness :
  outcome (@main plain_repr
             (Sample.world_with (Some "cyberark/api") Sample.secret_without_subdomain
                                (Sample.token_response 200 "tok-1")))
  = Raise (KeyError "subdomain").
Proof.
  apply (proj2 (proj2 (@missing_subdomain_fails_at_fetch plain_repr
           (Sample.world_with (Some "cyberark/api") Sample.secret_without_subdomain
                              (Sample.token_response 200 "tok-1"))
           Sample.secret_without_subdomain
           eq_refl eq_refl eq_refl)) (PStr "tok-1")).
  reflexivity.
Defined.

Lemma output_independent_of_token_witness :
  stdout (trace (@main plain_repr Sample.healthy))
  = stdout (trace (@main plain_repr
                     (Sample.world_with (Some "cyberark/api") Sample.secret
                                        (Sample.token_response 200 "tok-2")))).
Proof.
  apply (@output_independent_of_token plain_repr Sample.healthy
           (Sample.world_with (Some "cyberark/api") Sample.secret
                              (Sample.token_response 200 "tok-2"))
           Sample.secret (PStr "tok-1") (PStr "tok-2"));
    try reflexivity.
Defined.


(** The sum of two totals of 4300 nines has 4301 digits. *)
Lemma most_digits_sum_past_limit :
  within_str_limit (Scenario.most_digits + Scenario.most_digits) = false.
Proof.
  apply not_true_iff_false. rewrite within_str_limit_spec.
  unfold Scenario.most_digits.
  assert (Hten : 10 ^ 1 <= 10 ^ int_max_str_digits)
    by (apply Z.pow_le_mono_r; unfold int_max_str_digits; lia).
  change (10 ^ 1) with 10 in Hten.
  generalize dependent (10 ^ int_max_str_digits). intros P Hten. lia.
Qed.


Lemma report_preserves_order_witness :
  printed (trace (@main plain_repr Scenario.two_each)) =
    (progress
     ++ [spaced_rule; "SCA POLICIES (sca.cyberark.cloud)"; rule;
         nl ++ "  Name:        A"; "  Description: first";
         "  Status:      Active"; "  Policy ID:   p1";
         nl ++ "  Name:        B"; "  Description: second";
         "  Status:      Inactive"; "  Policy ID:   p2";
         spaced_rule; "SIA POLICIES (uap.cyberark.cloud)"; rule;
         nl ++ "  Name:        C"; "  Description: third";
         "  Status:      Active"; "  Policy ID:   q1";
         nl ++ "  Name:        D"; "  Description: fourth";
         "  Status:      Draft"; "  Policy ID:   q2";
         spaced_rule; "TOTAL: 2 SCA + 2 SIA = 4 policies"; rule]%string)%list.
Proof.
  refine (proj1 (@report_preserves_order plain_repr Scenario.two_each
                   Sample.secret (PStr "tok-1") (PStr "acme")
                   Scenario.sca_two Scenario.sia_two
                   (match lookup "hits" Scenario.sca_two with
                    | Some (PList l) => l
                    | _ => []
                    end)
                   (match lookup "results" Scenario.sia_two with
                    | Some (PList l) => l
                    | _ => []
                    end)
                   _ _ _ _ _ _ _ _ _ _));
    try reflexivity; repeat constructor.
Defined.

(** The round trip of the specification: one active SCA record and an empty
    SIA result. *)
Example round_trip_report :
  printed (trace (@main plain_repr Sample.healthy)) =
  [rule;
   "CyberArk SCA & SIA Policy Retriever (AWS Secrets Manager)";
   rule;
   nl ++ "[1/4] Retrieving credentials from AWS Secrets Manager...";
   "      ✓ Credentials retrieved";
   "[2/4] Authenticating via OAuth 2.0...";
   "      ✓ Bearer token acquired";
   "[3/4] Retrieving SCA policies...";
   "      ✓ Done";
   "[4/4] Retrieving SIA policies...";
   "      ✓ Done";
   spaced_rule; "SCA POLICIES (sca.cyberark.cloud)"; rule;
   nl ++ "  Name:        A"; "  Description: d";
   "  Status:      Active"; "  Policy ID:   p1";
   spaced_rule; "SIA POLICIES (uap.cyberark.cloud)"; rule;
   spaced_rule; "TOTAL: 1 SCA + 0 SIA = 1 policies"; rule]%string.
Proof. vm_compute. reflexivity. Qed.

Example sca_status_zero_inactive :
  line 2 (@display_sca_policy plain_repr (PDict [("status", PInt 0)]))
  = Some "  Status:      Inactive".
Proof. reflexivity. Qed.

Example float_one_equals_one :
  py_eq_int (PFloat 1%float) 1 = true /\ py_eq_int (PFloat 1.5%float) 1 = false.
Proof. split; vm_compute; reflexivity. Qed.

(** ** Instances of the further properties *)


Lemma main_stops_when_secret_fails_witness :
  outcome (@main plain_repr Scenario.store_down)
  = Raise (ClientError "AccessDeniedException").
Proof.
  exact (proj1 (@main_stops_when_secret_fails plain_repr Scenario.store_down
                  (ClientError "AccessDeniedException") eq_refl eq_refl)).
Defined.

Lemma get_token_needs_credentials_witness :
  @get_token plain_repr Sample.healthy Scenario.secret_without_client_secret
  = ([], Raise (KeyError "client_secret")).
Proof.
  apply (@get_token_needs_credentials plain_repr Sample.healthy
           Scenario.secret_without_client_secret).
  reflexivity.
Defined.

Lemma get_token_success_witness :
  @get_token plain_repr Sample.healthy Sample.secret
  = ([HttpPost Sample.token_url Sample.token_form], Ok (PStr "tok-1")).
Proof.
  apply (@get_token_success plain_repr Sample.healthy Sample.secret
           (PStr "abc1234") (PStr "reporter@example") (PStr "s3cret")
           (Sample.token_response 200 "tok-1")
           (PDict [("access_token", PStr "tok-1")]) (PStr "tok-1"));
    reflexivity.
Defined.


Lemma fetchers_success_witness :
  @get_sca_policies plain_repr Sample.healthy (PStr "acme") (PStr "tok-1")
  = ([HttpGet "https://acme.sca.cyberark.cloud/api/policies" "Bearer tok-1"],
     Ok Sample.sca_data).
Proof.
  apply (proj1 (@fetchers_success plain_repr Sample.healthy (PStr "acme") (PStr "tok-1")
                  {| status_code := 200; body := Some Sample.sca_data |}
                  Sample.sca_data eq_refl eq_refl)).
  reflexivity.
Defined.

Lemma fetchers_error_status_witness :
  @get_sca_policies plain_repr Scenario.sca_down (PStr "acme") (PStr "tok-1")
  = ([HttpGet "https://acme.sca.cyberark.cloud/api/policies" "Bearer tok-1"],
     Raise (HTTPError 500)).
Proof.
  apply (@fetchers_error_status plain_repr Scenario.sca_down (PStr "acme") (PStr "tok-1")
           Scenario.server_error).
  - simpl. lia.
  - reflexivity.
Defined.

Lemma main_stops_when_sca_fetch_fails_witness :
  outcome (@main plain_repr Scenario.sca_down) = Raise (HTTPError 500).
Proof.
  exact (proj1 (@main_stops_when_sca_fetch_fails plain_repr Scenario.sca_down
                  Sample.secret (PStr "tok-1") (PStr "acme") (HTTPError 500)
                  eq_refl eq_refl eq_refl eq_refl eq_refl)).
Defined.

Lemma main_discards_sca_when_sia_fetch_fails_witness :
  printed (trace (@main plain_repr Scenario.sia_down)) = firstn 10 progress.
Proof.
  exact (proj2 (proj2 (@main_discards_sca_when_sia_fetch_fails plain_repr
                  Scenario.sia_down Sample.secret (PStr "tok-1") (PStr "acme")
                  Sample.sca_data (HTTPError 500)
                  eq_refl eq_refl eq_refl eq_refl eq_refl eq_refl))).
Defined.

Lemma main_calls_when_fetches_succeed_witness :
  calls (trace (@main plain_repr Sample.healthy)) =
    [SecretsManagerGet "us-east-2" (Some "cyberark/api");
     HttpPost Sample.token_url Sample.token_form;
     HttpGet "https://acme.sca.cyberark.cloud/api/policies" "Bearer tok-1";
     HttpGet "https://acme.uap.cyberark.cloud/api/policies" "Bearer tok-1"].
Proof.
  exact (@main_calls_when_fetches_succeed plain_repr Sample.healthy
           Sample.secret (PStr "abc1234") (PStr "reporter@example") (PStr "s3cret")
           (PStr "tok-1") (PStr "acme") Sample.sca_data Sample.sia_data
           eq_refl eq_refl eq_refl eq_refl eq_refl eq_refl eq_refl eq_refl eq_refl).
Defined.

Lemma output_independent_of_credentials_witness :
  stdout (trace (@main plain_repr Sample.healthy))
  = stdout (trace (@main plain_repr Scenario.other_tenant)).
Proof.
  exact (proj1 (@output_independent_of_credentials plain_repr
                  Sample.healthy Scenario.other_tenant
                  Sample.secret Scenario.other_secret
                  (PStr "tok-1") (PStr "tok-9") (PStr "acme") (PStr "beta")
                  eq_refl eq_refl eq_refl eq_refl eq_refl eq_refl eq_refl eq_refl
                  eq_refl eq_refl)).
Defined.

Lemma sections_reject_malformed_response_witness :
  @display_sca_policies plain_repr (PDict [("hits", PNone)])
  = (sca_heading, Raise TypeError).
Proof.
  apply (proj1 (proj2 (@sections_reject_malformed_response plain_repr))
           [("hits", PNone)] PNone); reflexivity.
Defined.

Lemma sections_of_empty_response_witness :
  @display_sia_policies plain_repr (PDict [("total", PInt 0)])
  = (sia_heading, Ok tt).
Proof.
  apply (proj2 (@sections_of_empty_response plain_repr) [("total", PInt 0)]).
  left. reflexivity.
Defined.

Lemma sections_stop_at_bad_record_witness :
  @display_sca_policies plain_repr
     (PDict [("hits", PList [Sample.sca_policy; PStr "oops"; Sample.sca_policy])])
  = ((sca_heading ++ trace (@display_sca_policy plain_repr Sample.sca_policy))%list,
     Raise AttributeError).
Proof.
  apply (proj1 (@sections_stop_at_bad_record plain_repr)
           [("hits", PList [Sample.sca_policy; PStr "oops"; Sample.sca_policy])]
           [Sample.sca_policy] (PStr "oops") [Sample.sca_policy]).
  - reflexivity.
  - repeat constructor.
  - reflexivity.
Defined.

Lemma sia_record_with_flat_status_fails_witness :
  @display_sia_policy plain_repr
     (PDict [("metadata", PDict [("name", PStr "db-admins");
                                 ("status", PStr "Active")])])
  = ([Print (nl ++ "  Name:        db-admins"); Print "  Description: None"],
     Raise AttributeError).
Proof.
  apply (proj2 (@sia_record_with_flat_status_fails plain_repr)
           [("metadata", PDict [("name", PStr "db-admins"); ("status", PStr "Active")])]
           [("name", PStr "db-admins"); ("status", PStr "Active")]
           (PStr "Active")); reflexivity.
Defined.

Lemma section_lengths_witness :
  length (printed (trace (@display_sca_policies plain_repr Sample.sca_data))) = 7%nat.
Proof.
  apply (proj1 (@section_lengths plain_repr Sample.sca_response [Sample.sca_policy])).
  - reflexivity.
  - repeat constructor.
Defined.



Lemma main_complete_run_witness :
  outcome (@main plain_repr Sample.healthy) = Ok tt.
Proof.
  refine (proj1 (@main_complete_run plain_repr Sample.healthy
                   Sample.secret (PStr "tok-1") (PStr "acme")
                   Sample.sca_response Sample.sia_response
                   [Sample.sca_policy] [] 1 0
                   _ _ _ _ _ _ _ _ _ _ _ _ _));
    try reflexivity; repeat constructor.
Defined.

Lemma main_stops_when_token_fails_witness :
  outcome (@main plain_repr Scenario.token_unreachable) = Raise ConnectionError.
Proof.
  exact (proj1 (@main_stops_when_token_fails plain_repr Scenario.token_unreachable
                  Sample.secret ConnectionError eq_refl eq_refl eq_refl)).
Defined.

Lemma empty_settings_witness :
  calls (trace (@main plain_repr
                  (Sample.world_with (Some "") Sample.secret
                                     (Sample.token_response 200 "tok-1"))))
  = [].
Proof.
  apply (proj1 (@empty_settings plain_repr
                  (Sample.world_with (Some "") Sample.secret
                                     (Sample.token_response 200 "tok-1")))).
  reflexivity.
Defined.

Lemma main_total_past_str_limit_witness :
  outcome (@main plain_repr Scenario.huge_totals) = Raise ValueError.
Proof.
  refine (proj1 (@main_total_past_str_limit plain_repr Scenario.huge_totals
                   Sample.secret (PStr "tok-1") (PStr "acme")
                   Scenario.sca_huge Scenario.sia_huge
                   Scenario.most_digits Scenario.most_digits
                   _ _ _ _ _ _ _ _ _ _ _));
    first [exact most_digits_sum_past_limit | reflexivity].
Defined.
